(** * Sorena web builder: validation, code generation and the generate route

    A shallow embedding of the schemas of [src/lib/validation.ts], of the
    plan-to-files generator (the module imported as [@/lib/codegen]), of
    the AI client (imported as [@/lib/ai]) and of the handler of
    [src/app/api/generate/route.ts], followed by the properties the
    specification states about them.

    Conventions.
    - A JavaScript string is a Rocq [string] holding its UTF-8 bytes;
      [String_length] counts UTF-16 code units as [String.prototype.length]
      does.
    - A value produced by [JSON.parse] is a [JsValue]; [undefined] (the result
      of reading an absent property) is [None] of [option JsValue].
    - An object is the list of its own properties in property order.
    - Code that can throw returns an [Outcome]. *)

From Stdlib Require Import String Ascii List Bool Arith.
Import ListNotations.
Open Scope list_scope.
Open Scope string_scope.

Set Implicit Arguments.

(* ------------------------------------------------------------------ *)
(** ** JavaScript values *)
(* ------------------------------------------------------------------ *)

Module Js.

(** The double quote and the line feed, written by character code. *)
Definition dq : string := String "034"%char EmptyString.
Definition nl : string := String "010"%char EmptyString.

(** [q s] is [s] between double quotes, as in [class="hero"]. *)
Definition q (s : string) : string := dq ++ s ++ dq.

(** [Array.prototype.join] on strings. *)
Definition join (sep : string) (parts : list string) : string :=
  String.concat sep parts.

(** The lines of a template literal that spans several source lines. *)
Definition lines (ls : list string) : string := join nl ls.

(** [prefixb p s]: [s] starts with [p]. *)
Fixpoint prefixb (p s : string) : bool :=
  match p, s with
  | EmptyString, _ => true
  | String a p', String b s' => Ascii.eqb a b && prefixb p' s'
  | String _ _, EmptyString => false
  end.

(** [includes s needle]: [String.prototype.includes]. *)
Fixpoint includes (s needle : string) : bool :=
  prefixb needle s ||
  match s with
  | EmptyString => false
  | String _ s' => includes s' needle
  end.

(** [s] occurs in [t] as a contiguous piece. *)
Definition occurs_in (s t : string) : Prop :=
  exists pre post, t = pre ++ s ++ post.

(** Number of UTF-16 code units of a string given by its UTF-8 bytes: one
    per code point (a byte that is not a continuation byte [10xxxxxx]),
    and one more for each code point outside the basic plane (lead byte
    [11110xxx]). *)
Definition utf16_units (c : ascii) : nat :=
  let n := nat_of_ascii c in
  if (n <? 128)%nat then 1
  else if (n <? 192)%nat then 0
  else if (n <? 240)%nat then 1
  else 2.

Fixpoint String_length (s : string) : nat :=
  match s with
  | EmptyString => 0
  | String c s' => utf16_units c + String_length s'
  end.

(** A value in the range of [JSON.parse].  A number is carried as the
    decimal text JavaScript prints for it ([Number::toString], which is
    [Infinity] or [-Infinity] for a literal out of range): the program only
    prints numbers and tests them for zero. *)
#[warnings="-register-all"] Inductive JsValue : Type :=
| JNull
| JBool (b : bool)
| JNum (text : string)
| JStr (s : string)
| JArr (elems : list JsValue)
| JObj (members : list (string * JsValue)).

(** Own-property lookup on a property list, [o[k]]. *)
Fixpoint lookup {A} (k : string) (o : list (string * A)) : option A :=
  match o with
  | [] => None
  | (k', v) :: o' => if k' =? k then Some v else lookup k o'
  end.

Definition has_key {A} (k : string) (o : list (string * A)) : bool :=
  match lookup k o with Some _ => true | None => false end.

(** [ToBoolean]. *)
Definition truthy (v : JsValue) : bool :=
  match v with
  | JNull => false
  | JBool b => b
  | JNum text => negb (text =? "0")
  | JStr s => negb (s =? EmptyString)
  | JArr _ => true
  | JObj _ => true
  end.

Definition truthy_opt (v : option JsValue) : bool :=
  match v with Some x => truthy x | None => false end.

(** *** Exceptions *)

(** One entry of [ZodError.errors]. *)
Inductive PathSeg := Key (k : string) | Index (i : nat).

Inductive IssueCode :=
| invalid_type | invalid_enum_value | too_small | too_big.

Record ZodIssue := mkIssue {
  issue_code : IssueCode;
  issue_path : list PathSeg;
  (** the message given in the schema, when there is one *)
  issue_message : option string
}.

(** A thrown value: an [Error] object with its [name] and [message]; a
    [ZodError] also carries [errors]. *)
Inductive Exn :=
| NativeError (name message : string)
| ZodError (errors : list ZodIssue).

Definition TypeError (message : string) : Exn := NativeError "TypeError" message.
Definition Error (message : string) : Exn := NativeError "Error" message.

Inductive Outcome (A : Type) : Type :=
| Return (a : A)
| Throw (e : Exn).
Arguments Return {A} a.
Arguments Throw {A} e.

Definition bind {A B} (c : Outcome A) (k : A -> Outcome B) : Outcome B :=
  match c with
  | Return a => k a
  | Throw e => Throw e
  end.

Declare Scope js_scope.
Delimit Scope js_scope with js.
Notation "x <- c ;; k" := (bind c (fun x => k))
  (at level 61, c at next level, right associativity) : js_scope.

(** [Array.prototype.map] with a callback that may throw: elements are
    visited in order and the first exception escapes. *)
Fixpoint mapM {A B} (f : A -> Outcome B) (l : list A) : Outcome (list B) :=
  match l with
  | [] => Return []
  | x :: r => bind (f x) (fun y => bind (mapM f r) (fun ys => Return (y :: ys)))
  end.

(** *** ToString *)

(** Conversion of a value to a string, as a template literal does for
    [${v}].  An array is joined with commas, [null] elements printing as
    nothing.  An object prints as [[object Object]] through
    [Object.prototype.toString]; when it has an own property [toString]
    (never callable in parsed JSON) that method is shadowed and
    [OrdinaryToPrimitive] ends in a [TypeError]. *)
Fixpoint ToString (v : JsValue) : Outcome string :=
  match v with
  | JNull => Return "null"
  | JBool true => Return "true"
  | JBool false => Return "false"
  | JNum text => Return text
  | JStr s => Return s
  | JArr elems =>
      bind
        ((fix each (l : list JsValue) : Outcome (list string) :=
            match l with
            | [] => Return []
            | x :: r =>
                bind (match x with JNull => Return EmptyString | _ => ToString x end)
                     (fun s => bind (each r) (fun ss => Return (s :: ss)))
            end) elems)
        (fun parts => Return (join "," parts))
  | JObj members =>
      if has_key "toString" members
      then Throw (TypeError "Cannot convert object to primitive value")
      else Return "[object Object]"
  end.

(** [${v}] where [v] may be [undefined]. *)
Definition ToString_opt (v : option JsValue) : Outcome string :=
  match v with
  | Some x => ToString x
  | None => Return "undefined"
  end.

(** [${v || dflt}] with a string default. *)
Definition or_default (v : option JsValue) (dflt : string) : Outcome string :=
  match v with
  | Some x => if truthy x then ToString x else Return dflt
  | None => Return dflt
  end.

(** [s || dflt] on an optional string. *)
Definition str_or (s : option string) (dflt : string) : string :=
  match s with
  | Some x => if x =? EmptyString then dflt else x
  | None => dflt
  end.

(** [item.k] for a key [k] that no built-in prototype defines (the
    generator reads [title] and [description]): [null] has no properties,
    an object yields its own property, anything else yields [undefined]. *)
Definition getProp (item : JsValue) (k : string) : Outcome (option JsValue) :=
  match item with
  | JNull =>
      Throw (TypeError ("Cannot read properties of null (reading '" ++ k ++ "')"))
  | JObj members => Return (lookup k members)
  | _ => Return None
  end.

(** *** JSON.stringify *)

Definition hex_digit (n : nat) : ascii :=
  if (n <? 10)%nat then ascii_of_nat (48 + n) else ascii_of_nat (87 + n).

(** [QuoteJSONString], one character. *)
Definition quote_char (c : ascii) : string :=
  let n := nat_of_ascii c in
  if (n =? 34)%nat then String "\" dq
  else if (n =? 92)%nat then "\\"
  else if (n =? 8)%nat then "\b"
  else if (n =? 12)%nat then "\f"
  else if (n =? 10)%nat then "\n"
  else if (n =? 13)%nat then "\r"
  else if (n =? 9)%nat then "\t"
  else if (n <? 32)%nat then
    "\u00" ++ String (hex_digit (n / 16)) (String (hex_digit (n mod 16)) EmptyString)
  else String c EmptyString.

Fixpoint quote_body (s : string) : string :=
  match s with
  | EmptyString => EmptyString
  | String c s' => quote_char c ++ quote_body s'
  end.

Definition quote (s : string) : string := dq ++ quote_body s ++ dq.

(** The closing step of [SerializeJSONObject] and [SerializeJSONArray]:
    [partial] are the serialized members, [stepback] the indentation of
    the enclosing level. *)
Definition wrap (open close gap stepback : string) (partial : list string) : string :=
  match partial with
  | [] => open ++ close
  | _ =>
      if gap =? EmptyString
      then open ++ join "," partial ++ close
      else
        let indent := stepback ++ gap in
        open ++ nl ++ indent ++ join ("," ++ nl ++ indent) partial
             ++ nl ++ stepback ++ close
  end.

(** Whether the text of a number is that of a finite one.  [JSON.parse]
    yields [Infinity] or [-Infinity] for a literal out of range, and
    [JSON.stringify] prints every non-finite number as [null]. *)
Definition finite (text : string) : bool :=
  negb ((text =? "Infinity") || (text =? "-Infinity") || (text =? "NaN")).

(** [SerializeJSONProperty] on parsed JSON, with the gap and the current
    indentation. *)
Fixpoint serialize (gap indent : string) (v : JsValue) {struct v} : string :=
  match v with
  | JNull => "null"
  | JBool true => "true"
  | JBool false => "false"
  | JNum text => if finite text then text else "null"
  | JStr s => quote s
  | JArr elems =>
      wrap "[" "]" gap indent (map (serialize gap (indent ++ gap)) elems)
  | JObj members =>
      wrap "{" "}" gap indent
        (map (fun kv =>
                quote (fst kv) ++ ":"
                  ++ (if gap =? EmptyString then EmptyString else " ")
                  ++ serialize gap (indent ++ gap) (snd kv))
             members)
  end.

(** [JSON.stringify(v)] and [JSON.stringify(v, null, 2)]. *)
Definition JSON_stringify (v : JsValue) : string :=
  serialize EmptyString EmptyString v.
Definition JSON_stringify2 (v : JsValue) : string :=
  serialize "  " EmptyString v.

End Js.

(* ------------------------------------------------------------------ *)
(** ** The data model of [validation.ts] *)
(* ------------------------------------------------------------------ *)

Module Validation.
Import Js.

(** [BuildRequest['framework']]. *)
Inductive Framework := vanilla | react | next.

Inductive SectionKind :=
| hero | features | menu | gallery | pricing | contact | faq.

Inductive Language := fa | en.

Inductive Tone := formal | casual | playful.

Record Theme := mkTheme {
  primary : string;
  secondary : option string;
  theme_font : option string;
  dark : option bool
}.

Record Brand := mkBrand {
  brand_name : option string;
  tone : option Tone
}.

Record BuildRequest := mkBuildRequest {
  intent : string;
  framework : Framework;
  theme : Theme;
  req_sections : list SectionKind;
  req_language : Language;
  brand : option Brand
}.

(** [SitePlan], the type inferred from [SitePlanSchema]. *)
Record Meta := mkMeta {
  title : string;
  description : string;
  language : string
}.

Record Image := mkImage {
  image_id : string;
  prompt : option string;
  url : option string
}.

Record Assets := mkAssets { images : list Image }.

Record Section := mkSection {
  section_id : string;
  section_type : string;
  props : list (string * JsValue)
}.

Record Style := mkStyle {
  colors : list (string * string);
  font : option string
}.

Record SitePlan := mkSitePlan {
  meta : Meta;
  assets : Assets;
  sections : list Section;
  style : Style
}.

(** [GeneratedFiles]. *)
Record GeneratedFile := mkFile {
  path : string;
  content : string
}.

Record GeneratedFiles := mkFiles { files : list GeneratedFile }.

(** *** Schemas

    A zod schema is run on the value found at a path ([None] when the
    property is absent) and either yields the parsed value or the issues
    it raised.  An object schema visits every field of its shape and
    gathers the issues of all of them. *)
Inductive Parsed (A : Type) : Type :=
| Valid (a : A)
| Invalid (issues : list ZodIssue).
Arguments Valid {A} a.
Arguments Invalid {A} issues.

Definition Schema (A : Type) : Type := list PathSeg -> option JsValue -> Parsed A.

Definition issues_of {A} (r : Parsed A) : list ZodIssue :=
  match r with
  | Valid _ => []
  | Invalid issues => issues
  end.

(** Combination of the result of the fields seen so far with the next. *)
Definition ap {A B} (f : Parsed (A -> B)) (x : Parsed A) : Parsed B :=
  match f, x with
  | Valid g, Valid a => Valid (g a)
  | _, _ => Invalid (issues_of f ++ issues_of x)%list
  end.

Inductive StringCheck :=
| Min (n : nat) (message : option string)
| Max (n : nat) (message : option string).

Definition check_string (path : list PathSeg) (s : string) (c : StringCheck)
  : list ZodIssue :=
  match c with
  | Min n message =>
      if (String_length s <? n)%nat then [mkIssue too_small path message] else []
  | Max n message =>
      if (n <? String_length s)%nat then [mkIssue too_big path message] else []
  end.

(** [z.string()] followed by its [.min] and [.max] checks. *)
Definition z_string (checks : list StringCheck) : Schema string :=
  fun path v =>
    match v with
    | Some (JStr s) =>
        match flat_map (check_string path s) checks with
        | [] => Valid s
        | issues => Invalid issues
        end
    | _ => Invalid [mkIssue invalid_type path None]
    end.

Definition z_boolean : Schema bool :=
  fun path v =>
    match v with
    | Some (JBool b) => Valid b
    | _ => Invalid [mkIssue invalid_type path None]
    end.

(** [z.enum([...])], each literal paired with the constructor it denotes. *)
Definition z_enum {A} (options : list (string * A)) : Schema A :=
  fun path v =>
    match v with
    | Some (JStr s) =>
        match lookup s options with
        | Some a => Valid a
        | None => Invalid [mkIssue invalid_enum_value path None]
        end
    | _ => Invalid [mkIssue invalid_type path None]
    end.

(** [.optional()]. *)
Definition z_optional {A} (inner : Schema A) : Schema (option A) :=
  fun path v =>
    match v with
    | None => Valid None
    | Some _ =>
        match inner path v with
        | Valid a => Valid (Some a)
        | Invalid issues => Invalid issues
        end
    end.

(** The elements of an array, each parsed at its index. *)
Fixpoint parse_elems {A} (elem : Schema A) (path : list PathSeg) (i : nat)
         (l : list JsValue) : Parsed (list A) :=
  match l with
  | [] => Valid []
  | x :: r =>
      ap (ap (Valid cons) (elem (path ++ [Index i])%list (Some x)))
         (parse_elems elem path (S i) r)
  end.

(** [z.array(elem).min(n)]. *)
Definition z_array_min {A} (elem : Schema A) (n : nat) : Schema (list A) :=
  fun path v =>
    match v with
    | Some (JArr elems) =>
        let short :=
          if (length elems <? n)%nat then [mkIssue too_small path None] else [] in
        match short, parse_elems elem path 0 elems with
        | [], Valid l => Valid l
        | _, r => Invalid (short ++ issues_of r)%list
        end
    | _ => Invalid [mkIssue invalid_type path None]
    end.

(** [z.object({...})]: [shape] receives the reader of a field. *)
Definition z_object {B}
           (shape : (forall A, string -> Schema A -> Parsed A) -> Parsed B)
  : Schema B :=
  fun path v =>
    match v with
    | Some (JObj members) =>
        shape (fun A k s => s (path ++ [Key k])%list (lookup k members))
    | _ => Invalid [mkIssue invalid_type path None]
    end.

Definition ThemeSchema : Schema Theme :=
  z_object (fun field =>
    ap (ap (ap (ap (Valid mkTheme)
      (field _ "primary" (z_string [])))
      (field _ "secondary" (z_optional (z_string []))))
      (field _ "font" (z_optional (z_string []))))
      (field _ "dark" (z_optional z_boolean))).

Definition BrandSchema : Schema Brand :=
  z_object (fun field =>
    ap (ap (Valid mkBrand)
      (field _ "name" (z_optional (z_string []))))
      (field _ "tone" (z_optional
         (z_enum [("formal", formal); ("casual", casual); ("playful", playful)])))).

(** The field schemas of [BuildRequestSchema] that are not objects. *)
Definition IntentSchema : Schema string :=
  z_string [ Min 3 (Some "Prompt must be at least 3 characters"); Max 2000 None ].

Definition FrameworkSchema : Schema Framework :=
  z_enum [("vanilla", vanilla); ("react", react); ("next", next)].

Definition SectionsSchema : Schema (list SectionKind) :=
  z_array_min
    (z_enum [ ("hero", hero); ("features", features); ("menu", menu);
              ("gallery", gallery); ("pricing", pricing);
              ("contact", contact); ("faq", faq) ])
    1.

Definition LanguageSchema : Schema Language :=
  z_enum [("fa", fa); ("en", en)].

Definition BuildRequestSchema : Schema BuildRequest :=
  z_object (fun field =>
    ap (ap (ap (ap (ap (ap (Valid mkBuildRequest)
      (field _ "intent" IntentSchema))
      (field _ "framework" FrameworkSchema))
      (field _ "theme" ThemeSchema))
      (field _ "sections" SectionsSchema))
      (field _ "language" LanguageSchema))
      (field _ "brand" (z_optional BrandSchema))).

(** [schema.parse(raw)]: the parsed value, or a thrown [ZodError]. *)
Definition parse {A} (schema : Schema A) (raw : JsValue) : Outcome A :=
  match schema [] (Some raw) with
  | Valid a => Return a
  | Invalid issues => Throw (ZodError issues)
  end.

End Validation.

(* ------------------------------------------------------------------ *)
(** ** The generator, [codegen.ts] *)
(* ------------------------------------------------------------------ *)

Module Codegen.
Import Js Validation.
Local Open Scope js_scope.

(** The optional call-to-action button of a hero section; [tag] is the
    opening tag, which differs between the HTML and the JSX rendering. *)
Definition cta_button (tag : string) (cta : option JsValue) : Outcome string :=
  if truthy_opt cta
  then c <- ToString_opt cta ;; Return (tag ++ c ++ "</button>")
  else Return EmptyString.

(** One feature card, the callback of [items.map] in [renderHtml]. *)
Definition renderHtml_item (item : JsValue) : Outcome string :=
  t <- getProp item "title" ;;
  ts <- ToString_opt t ;;
  d <- getProp item "description" ;;
  ds <- ToString_opt d ;;
  Return (lines
    [ EmptyString;
      "        <div class=" ++ q "feature-item" ++ ">";
      "          <h3>" ++ ts ++ "</h3>";
      "          <p>" ++ ds ++ "</p>";
      "        </div>" ]).

(** [(section.props.items || []).map(f)]: a falsy or absent [items] is
    replaced by the empty array; an array is mapped; any other truthy
    value has no callable [map]. *)
Definition items_map (items : option JsValue) (f : JsValue -> Outcome string)
  : Outcome (list string) :=
  match items with
  | None => Return []
  | Some v =>
      if truthy v then
        match v with
        | JArr elems => mapM f elems
        | _ => Throw (TypeError "(section.props.items || []).map is not a function")
        end
      else Return []
  end.

(** The section callback of [renderHtml]. *)
Definition renderHtml_section (section : Section) : Outcome string :=
  let p := props section in
  if section_type section =? "hero" then
    t <- or_default (lookup "title" p) "Welcome" ;;
    s <- or_default (lookup "subtitle" p) EmptyString ;;
    c <- cta_button ("<button class=" ++ q "cta-button" ++ ">") (lookup "cta" p) ;;
    Return (lines
      [ EmptyString;
        "    <section id=" ++ q (section_id section) ++ " class=" ++ q "hero" ++ ">";
        "      <h1>" ++ t ++ "</h1>";
        "      <p>" ++ s ++ "</p>";
        "      " ++ c;
        "    </section>" ])
  else if section_type section =? "features" then
    t <- or_default (lookup "title" p) "Features" ;;
    cards <- items_map (lookup "items" p) renderHtml_item ;;
    Return (lines
      [ EmptyString;
        "    <section id=" ++ q (section_id section) ++ " class=" ++ q "features" ++ ">";
        "      <h2>" ++ t ++ "</h2>";
        "      <div class=" ++ q "features-grid" ++ ">";
        "        " ++ join EmptyString cards;
        "      </div>";
        "    </section>" ])
  else if section_type section =? "contact" then
    t <- or_default (lookup "title" p) "Contact" ;;
    e <- or_default (lookup "email" p) EmptyString ;;
    ph <- or_default (lookup "phone" p) EmptyString ;;
    a <- or_default (lookup "address" p) EmptyString ;;
    Return (lines
      [ EmptyString;
        "    <section id=" ++ q (section_id section) ++ " class=" ++ q "contact" ++ ">";
        "      <h2>" ++ t ++ "</h2>";
        "      <p>" ++ e ++ "</p>";
        "      <p>" ++ ph ++ "</p>";
        "      <p>" ++ a ++ "</p>";
        "    </section>" ])
  else
    Return (lines
      [ EmptyString;
        "    <section id=" ++ q (section_id section)
          ++ " class=" ++ q (section_type section) ++ ">";
        "      <pre>" ++ JSON_stringify2 (JObj p) ++ "</pre>";
        "    </section>" ]).

(** The [dir] attribute of the root element. *)
Definition dir_attr (isRTL : bool) : string :=
  if isRTL then "dir=" ++ q "rtl" else EmptyString.

Definition renderHtml (plan : SitePlan) : Outcome string :=
  let isRTL := language (meta plan) =? "fa" in
  fragments <- mapM renderHtml_section (sections plan) ;;
  let sections := join nl fragments in
  Return (lines
    [ "<!DOCTYPE html>";
      "<html lang=" ++ q (language (meta plan)) ++ " " ++ dir_attr isRTL ++ ">";
      "<head>";
      "  <meta charset=" ++ q "UTF-8" ++ ">";
      "  <meta name=" ++ q "viewport"
        ++ " content=" ++ q "width=device-width, initial-scale=1.0" ++ ">";
      "  <title>" ++ title (meta plan) ++ "</title>";
      "  <meta name=" ++ q "description"
        ++ " content=" ++ q (description (meta plan)) ++ ">";
      "  <link rel=" ++ q "stylesheet" ++ " href=" ++ q "styles.css" ++ ">";
      "</head>";
      "<body>";
      "  <main>";
      sections;
      "  </main>";
      "  <script src=" ++ q "main.js" ++ "></script>";
      "</body>";
      "</html>" ]).

(** [colors.k || dflt]. *)
Definition color_or (colors : list (string * string)) (k dflt : string) : string :=
  str_or (lookup k colors) dflt.

Definition renderCss (plan : SitePlan) : string :=
  let colors := colors (style plan) in
  let font := str_or (font (style plan)) "system-ui, -apple-system, sans-serif" in
  lines
    [ "* {";
      "  margin: 0;";
      "  padding: 0;";
      "  box-sizing: border-box;";
      "}";
      EmptyString;
      "body {";
      "  font-family: " ++ font ++ ";";
      "  color: " ++ color_or colors "text" "#333" ++ ";";
      "  background: " ++ color_or colors "background" "#fff" ++ ";";
      "  line-height: 1.6;";
      "}";
      EmptyString;
      "main {";
      "  max-width: 1200px;";
      "  margin: 0 auto;";
      "  padding: 20px;";
      "}";
      EmptyString;
      "section {";
      "  margin: 40px 0;";
      "  padding: 20px;";
      "}";
      EmptyString;
      ".hero {";
      "  text-align: center;";
      "  padding: 60px 20px;";
      "  background: " ++ color_or colors "primary" "#007bff" ++ ";";
      "  color: white;";
      "  border-radius: 8px;";
      "}";
      EmptyString;
      ".hero h1 {";
      "  font-size: 2.5em;";
      "  margin-bottom: 20px;";
      "}";
      EmptyString;
      ".cta-button {";
      "  background: white;";
      "  color: " ++ color_or colors "primary" "#007bff" ++ ";";
      "  padding: 12px 30px;";
      "  border: none;";
      "  border-radius: 5px;";
      "  font-size: 1.1em;";
      "  cursor: pointer;";
      "  margin-top: 20px;";
      "}";
      EmptyString;
      ".features-grid {";
      "  display: grid;";
      "  grid-template-columns: repeat(auto-fit, minmax(250px, 1fr));";
      "  gap: 30px;";
      "  margin-top: 30px;";
      "}";
      EmptyString;
      ".feature-item {";
      "  padding: 20px;";
      "  background: " ++ color_or colors "secondary" "#f8f9fa" ++ ";";
      "  border-radius: 8px;";
      "}";
      EmptyString;
      ".contact {";
      "  background: " ++ color_or colors "secondary" "#f8f9fa" ++ ";";
      "  padding: 40px;";
      "  border-radius: 8px;";
      "}" ].

Definition renderJs (plan : SitePlan) : string :=
  lines
    [ "// Site initialization";
      "document.addEventListener('DOMContentLoaded', function() {";
      "  console.log('Site loaded: " ++ title (meta plan) ++ "');";
      "  ";
      "  // Add smooth scrolling";
      "  document.querySelectorAll('a[href^=" ++ q "#" ++ "]').forEach(anchor => {";
      "    anchor.addEventListener('click', function (e) {";
      "      e.preventDefault();";
      "      const target = document.querySelector(this.getAttribute('href'));";
      "      if (target) {";
      "        target.scrollIntoView({ behavior: 'smooth' });";
      "      }";
      "    });";
      "  });";
      "});" ].

(** The section callback of [renderReactApp]; the empty string stands for
    a section that defines no component. *)
Definition renderReactApp_section (section : Section) : Outcome string :=
  let p := props section in
  if section_type section =? "hero" then
    t <- or_default (lookup "title" p) "Welcome" ;;
    s <- or_default (lookup "subtitle" p) EmptyString ;;
    c <- cta_button ("<button className=" ++ q "cta-button" ++ ">") (lookup "cta" p) ;;
    Return (lines
      [ EmptyString;
        "  const Hero = () => (";
        "    <section className=" ++ q "hero" ++ ">";
        "      <h1>" ++ t ++ "</h1>";
        "      <p>" ++ s ++ "</p>";
        "      " ++ c;
        "    </section>";
        "  );" ])
  else if section_type section =? "features" then
    t <- or_default (lookup "title" p) "Features" ;;
    let items :=
      if truthy_opt (lookup "items" p)
      then match lookup "items" p with Some v => v | None => JArr [] end
      else JArr [] in
    Return (lines
      [ EmptyString;
        "  const Features = () => (";
        "    <section className=" ++ q "features" ++ ">";
        "      <h2>" ++ t ++ "</h2>";
        "      <div className=" ++ q "features-grid" ++ ">";
        "        " ++ JSON_stringify items;
        "      </div>";
        "    </section>";
        "  );" ])
  else Return EmptyString.

(** [Boolean(s)] on a string, the predicate of [.filter(Boolean)]. *)
Definition Boolean (s : string) : bool := negb (s =? EmptyString).

Definition renderReactApp (plan : SitePlan) : Outcome string :=
  fragments <- mapM renderReactApp_section (sections plan) ;;
  let sections := join nl (filter Boolean fragments) in
  Return (lines
    [ "import React from 'react';";
      "import './App.css';";
      EmptyString;
      "function App() {";
      "  " ++ sections;
      EmptyString;
      "  return (";
      "    <div className=" ++ q "App" ++ ">";
      "      <Hero />";
      "      <Features />";
      "    </div>";
      "  );";
      "}";
      EmptyString;
      "export default App;" ]).

(** The section callback of [renderNextPage]. *)
Definition renderNextPage_section (section : Section) : Outcome string :=
  let p := props section in
  t <- or_default (lookup "title" p) (section_type section) ;;
  Return (lines
    [ EmptyString;
      "        <section className=" ++ q "mb-12" ++ ">";
      "          <h2 className=" ++ q "text-2xl font-semibold mb-4" ++ ">" ++ t ++ "</h2>";
      "          <pre className=" ++ q "bg-gray-100 p-4 rounded" ++ ">"
        ++ JSON_stringify2 (JObj p) ++ "</pre>";
      "        </section>" ]).

Definition renderNextPage (plan : SitePlan) : Outcome string :=
  blocks <- mapM renderNextPage_section (sections plan) ;;
  Return (lines
    [ "export default function Home() {";
      "  return (";
      "    <main className="
        ++ q "flex min-h-screen flex-col items-center justify-between p-24" ++ ">";
      "      <div className="
        ++ q "z-10 w-full max-w-5xl items-center justify-between font-mono text-sm" ++ ">";
      "        <h1 className=" ++ q "text-4xl font-bold mb-8" ++ ">"
        ++ title (meta plan) ++ "</h1>";
      "        <p className=" ++ q "text-xl mb-8" ++ ">"
        ++ description (meta plan) ++ "</p>";
      "        " ++ join EmptyString blocks;
      "      </div>";
      "    </main>";
      "  );";
      "}" ]).

Definition baseLayout (plan : SitePlan) : string :=
  lines
    [ "import type { Metadata } from 'next'";
      "import './globals.css'";
      EmptyString;
      "export const metadata: Metadata = {";
      "  title: '" ++ title (meta plan) ++ "',";
      "  description: '" ++ description (meta plan) ++ "',";
      "}";
      EmptyString;
      "export default function RootLayout({";
      "  children,";
      "}: {";
      "  children: React.ReactNode";
      "}) {";
      "  return (";
      "    <html lang=" ++ q (language (meta plan)) ++ " "
        ++ dir_attr (language (meta plan) =? "fa") ++ ">";
      "      <body>{children}</body>";
      "    </html>";
      "  )";
      "}" ].

Definition tailwindBase : string :=
  lines
    [ "@tailwind base;";
      "@tailwind components;";
      "@tailwind utilities;" ].

(** [plan.style.colors] as the object [JSON.stringify] receives. *)
Definition colors_value (colors : list (string * string)) : JsValue :=
  JObj (map (fun kv => (fst kv, JStr (snd kv))) colors).

Definition tailwindConfig (plan : SitePlan) : string :=
  lines
    [ "import type { Config } from 'tailwindcss'";
      EmptyString;
      "const config: Config = {";
      "  content: [";
      "    './pages/**/*.{js,ts,jsx,tsx,mdx}',";
      "    './components/**/*.{js,ts,jsx,tsx,mdx}',";
      "    './app/**/*.{js,ts,jsx,tsx,mdx}',";
      "  ],";
      "  theme: {";
      "    extend: {";
      "      colors: " ++ JSON_stringify2 (colors_value (colors (style plan)));
      "    },";
      "  },";
      "  plugins: [],";
      "}";
      "export default config" ].

(** [basicPkgJson] takes a plain string; only ['react'] is singled out. *)
Definition basicPkgJson (framework : string) : string :=
  let deps :=
    if framework =? "react"
    then JObj [ ("react", JStr "^18.0.0");
                ("react-dom", JStr "^18.0.0");
                ("react-scripts", JStr "5.0.1") ]
    else JObj [ ("next", JStr "^14.0.0");
                ("react", JStr "^18.0.0");
                ("react-dom", JStr "^18.0.0") ] in
  JSON_stringify2
    (JObj
       [ ("name", JStr "generated-site");
         ("version", JStr "1.0.0");
         ("private", JBool true);
         ("scripts",
           if framework =? "react"
           then JObj [ ("start", JStr "react-scripts start");
                       ("build", JStr "react-scripts build");
                       ("test", JStr "react-scripts test");
                       ("eject", JStr "react-scripts eject") ]
           else JObj [ ("dev", JStr "next dev");
                       ("build", JStr "next build");
                       ("start", JStr "next start");
                       ("lint", JStr "next lint") ]);
         ("dependencies", deps) ]).

Definition react_main_jsx : string :=
  lines
    [ "import React from 'react';";
      "import { createRoot } from 'react-dom/client';";
      "import App from './App';";
      "createRoot(document.getElementById('root')).render(<App/>);" ].

Definition react_index_html (plan : SitePlan) : string :=
  lines
    [ "<!DOCTYPE html>";
      "<html lang=" ++ q (language (meta plan)) ++ ">";
      "<head>";
      "  <meta charset=" ++ q "utf-8" ++ " />";
      "  <meta name=" ++ q "viewport"
        ++ " content=" ++ q "width=device-width, initial-scale=1" ++ " />";
      "  <title>" ++ title (meta plan) ++ "</title>";
      "</head>";
      "<body>";
      "  <div id=" ++ q "root" ++ "></div>";
      "</body>";
      "</html>" ].

Definition buildFilesFromPlan (plan : SitePlan) (framework : Framework)
  : Outcome GeneratedFiles :=
  match framework with
  | vanilla =>
      html <- renderHtml plan ;;
      let css := renderCss plan in
      let js := renderJs plan in
      Return (mkFiles
        [ mkFile "index.html" html;
          mkFile "styles.css" css;
          mkFile "main.js" js ])
  | react =>
      let pkg := basicPkgJson "react" in
      app <- renderReactApp plan ;;
      Return (mkFiles
        [ mkFile "package.json" pkg;
          mkFile "src/App.jsx" app;
          mkFile "src/main.jsx" react_main_jsx;
          mkFile "public/index.html" (react_index_html plan);
          mkFile "src/App.css" (renderCss plan) ])
  | next =>
      let pkg := basicPkgJson "next" in
      page <- renderNextPage plan ;;
      Return (mkFiles
        [ mkFile "package.json" pkg;
          mkFile "app/page.tsx" page;
          mkFile "app/layout.tsx" (baseLayout plan);
          mkFile "app/globals.css" tailwindBase;
          mkFile "tailwind.config.ts" (tailwindConfig plan) ])
  end.

End Codegen.

(* ------------------------------------------------------------------ *)
(** ** Effects: the completion service and the console *)
(* ------------------------------------------------------------------ *)

Module Effects.
Import Js Validation.

(** What a request handler leaves behind: the requests sent to the
    completion service and the lines written with [console.error], both
    latest first. *)
Record World := mkWorld {
  ai_requests : list BuildRequest;
  console : list (string * Exn)
}.

(** An asynchronous computation: it may throw (a rejected promise is a
    thrown exception at its [await]) and it changes the world. *)
Definition Async (A : Type) : Type := World -> Outcome A * World.

Definition ret {A} (a : A) : Async A := fun w => (Return a, w).

Definition throw {A} (e : Exn) : Async A := fun w => (Throw e, w).

Definition lift {A} (c : Outcome A) : Async A := fun w => (c, w).

Definition bindA {A B} (c : Async A) (k : A -> Async B) : Async B :=
  fun w =>
    match c w with
    | (Return a, w') => k a w'
    | (Throw e, w') => (Throw e, w')
    end.

(** [try { c } catch (error) { handler(error) }]. *)
Definition try_catch {A} (c : Async A) (handler : Exn -> Async A) : Async A :=
  fun w =>
    match c w with
    | (Return a, w') => (Return a, w')
    | (Throw e, w') => handler e w'
    end.

Definition console_error (label : string) (e : Exn) : Async unit :=
  fun w => (Return tt, mkWorld (ai_requests w) ((label, e) :: console w)).

Declare Scope async_scope.
Delimit Scope async_scope with async.
Notation "x <- c ;; k" := (bindA c (fun x => k))
  (at level 61, c at next level, right associativity) : async_scope.
Notation "c ;; k" := (bindA c (fun _ => k))
  (at level 61, right associativity) : async_scope.

End Effects.

(* ------------------------------------------------------------------ *)
(** ** The AI client, [ai.ts] *)
(* ------------------------------------------------------------------ *)

Module Ai.
Import Js Validation Effects.
Local Open Scope async_scope.

(** One entry of [completion.choices]: [message] may be missing, and its
    [content] may be [null]. *)
Record Choice := mkChoice { message : option (option string) }.

Section Client.

(** The completion service: for the request it is sent, either the call
    fails or it answers with a list of choices. *)
Variable service : BuildRequest -> Outcome (list Choice).

(** [JSON.parse(json) as SitePlan]: the parsed reply at the type the
    cast declares, or the [SyntaxError] of [JSON.parse]. *)
Variable JSON_parse : string -> Outcome SitePlan.

(** [await openai.chat.completions.create(...)]. *)
Definition create (req : BuildRequest) : Async (list Choice) :=
  fun w => (service req, mkWorld (req :: ai_requests w) (console w)).

(** [completion.choices[0].message?.content]. *)
Definition first_content (choices : list Choice) : Outcome (option string) :=
  match choices with
  | [] => Throw (TypeError "Cannot read properties of undefined (reading 'message')")
  | c :: _ =>
      match message c with
      | None => Return None
      | Some content => Return content
      end
  end.

Definition generateSitePlan (req : BuildRequest) : Async SitePlan :=
  try_catch
    (choices <- create req ;;
     json <- lift (first_content choices) ;;
     match json with
     | Some text =>
         if text =? EmptyString
         then throw (Error "Empty AI response")
         else lift (JSON_parse text)
     | None => throw (Error "Empty AI response")
     end)
    (fun error =>
       console_error "AI generation error:" error ;;
       throw (Error "Failed to generate site plan")).

End Client.

End Ai.

(* ------------------------------------------------------------------ *)
(** ** The generate route, [app/api/generate/route.ts] *)
(* ------------------------------------------------------------------ *)

Module Route.
Import Js Validation Effects.
Local Open Scope async_scope.

(** The object handed to [NextResponse.json]: [{ plan, files }] on
    success, [{ error, details }] or [{ error }] otherwise ([details] is
    left out of the JSON when it is [undefined]). *)
Inductive Body :=
| Success (plan : SitePlan) (files : GeneratedFiles)
| Failure (error : string) (details : option (list ZodIssue)).

Record Response := mkResponse {
  status : nat;
  body : Body
}.

(** The property names of the JSON body. *)
Definition body_keys (b : Body) : list string :=
  match b with
  | Success _ _ => ["plan"; "files"]
  | Failure _ None => ["error"]
  | Failure _ (Some _) => ["error"; "details"]
  end.

Section Handler.

Variable service : BuildRequest -> Outcome (list Ai.Choice).
Variable JSON_parse : string -> Outcome SitePlan.

(** The [catch] block of [POST]. *)
Definition on_error (error : Exn) : Async Response :=
  console_error "Generation error:" error ;;
  match error with
  | ZodError errors =>
      ret (mkResponse 400 (Failure "Invalid request data" (Some errors)))
  | NativeError name message =>
      if name =? "ZodError"
      then ret (mkResponse 400 (Failure "Invalid request data" None))
      else ret (mkResponse 500
             (Failure (if message =? EmptyString
                       then "Failed to generate site" else message) None))
  end.

(** [POST(req)]; [req_json] is the outcome of [await req.json()]. *)
Definition POST (req_json : Outcome JsValue) : Async Response :=
  try_catch
    (body <- lift req_json ;;
     validatedData <- lift (parse BuildRequestSchema body) ;;
     plan <- Ai.generateSitePlan service JSON_parse validatedData ;;
     files <- lift (Codegen.buildFilesFromPlan plan (framework validatedData)) ;;
     ret (mkResponse 200 (Success plan files)))
    on_error.

End Handler.

End Route.

(* ------------------------------------------------------------------ *)
(** ** Vocabulary of the specification *)
(* ------------------------------------------------------------------ *)

Module Spec.
Import Js Validation Codegen.

(** The section types the specification calls known. *)
Definition known_type (t : string) : bool :=
  (t =? "hero") || (t =? "features") || (t =? "contact").

(** The fixed output paths of each flavor, in order. *)
Definition flavor_paths (fw : Framework) : list string :=
  match fw with
  | vanilla => ["index.html"; "styles.css"; "main.js"]
  | react =>
      ["package.json"; "src/App.jsx"; "src/main.jsx"; "public/index.html";
       "src/App.css"]
  | next =>
      ["package.json"; "app/page.tsx"; "app/layout.tsx"; "app/globals.css";
       "tailwind.config.ts"]
  end.

(** The fallback literal of each colour the stylesheet reads. *)
Definition default_colors : list (string * string) :=
  [ ("text", "#333"); ("background", "#fff");
    ("primary", "#007bff"); ("secondary", "#f8f9fa") ].

(** [plan] with the colour [k] set to [v]. *)
Definition with_color (k v : string) (plan : SitePlan) : SitePlan :=
  mkSitePlan (meta plan) (assets plan) (sections plan)
    (mkStyle ((k, v) :: colors (style plan)) (font (style plan))).

(** [plan] with another list of sections. *)
Definition with_sections (l : list Section) (plan : SitePlan) : SitePlan :=
  mkSitePlan (meta plan) (assets plan) l (style plan).

(** The file of [out] at [p], if any. *)
Definition file_at (p : string) (out : GeneratedFiles) : option string :=
  lookup p (map (fun f => (path f, content f)) (files out)).

(** *** Values a template literal can print

    [printable v]: no object reached through arrays carries an own
    [toString] property, so that [ToString v] returns. *)
Fixpoint printable (v : JsValue) : bool :=
  match v with
  | JArr elems => forallb printable elems
  | JObj members => negb (has_key "toString" members)
  | _ => true
  end.

Definition printable_opt (v : option JsValue) : bool :=
  match v with Some x => printable x | None => true end.

Definition printable_at (p : list (string * JsValue)) (keys : list string) : bool :=
  forallb (fun k => printable_opt (lookup k p)) keys.

(** A feature card [renderHtml] can print: not [null], and with printable
    [title] and [description] when it is an object. *)
Definition item_ok (item : JsValue) : bool :=
  match item with
  | JNull => false
  | JObj members =>
      printable_opt (lookup "title" members)
      && printable_opt (lookup "description" members)
  | _ => true
  end.

(** An [items] property [renderHtml] can map: absent, falsy, or an array
    of printable cards. *)
Definition items_ok (items : option JsValue) : bool :=
  match items with
  | None => true
  | Some v =>
      if truthy v then
        match v with
        | JArr elems => forallb item_ok elems
        | _ => false
        end
      else true
  end.

(** The sections each flavor renders without an exception. *)
Definition section_ok (fw : Framework) (s : Section) : bool :=
  let p := props s in
  match fw with
  | vanilla =>
      if section_type s =? "hero" then printable_at p ["title"; "subtitle"; "cta"]
      else if section_type s =? "features"
           then printable_at p ["title"] && items_ok (lookup "items" p)
      else if section_type s =? "contact"
           then printable_at p ["title"; "email"; "phone"; "address"]
      else true
  | react =>
      if section_type s =? "hero" then printable_at p ["title"; "subtitle"; "cta"]
      else if section_type s =? "features" then printable_at p ["title"]
      else true
  | next => printable_at p ["title"]
  end.

Definition plan_ok (fw : Framework) (plan : SitePlan) : bool :=
  forallb (section_ok fw) (sections plan).

(** The generic fragment of [renderHtml] for a section of unknown type. *)
Definition fallback_fragment (s : Section) : string :=
  lines
    [ EmptyString;
      "    <section id=" ++ q (section_id s) ++ " class=" ++ q (section_type s) ++ ">";
      "      <pre>" ++ JSON_stringify2 (JObj (props s)) ++ "</pre>";
      "    </section>" ].

(** Some file of [out] shows the props of [s] in a JSON form. *)
Definition shows_props (s : Section) (out : GeneratedFiles) : Prop :=
  exists f, In f (files out)
    /\ (occurs_in (JSON_stringify2 (JObj (props s))) (content f)
        \/ occurs_in (JSON_stringify (JObj (props s))) (content f)).

(** The fallback rule as the specification words it: every section of
    unknown type is rendered with its props, in every flavor. *)
Definition fallback_in_every_flavor (plan : SitePlan) (fw : Framework) : Prop :=
  forall s, In s (sections plan) -> known_type (section_type s) = false ->
    exists out, buildFilesFromPlan plan fw = Return out /\ shows_props s out.


(** The JSON form of a request, with the fields in schema order and
    absent optional fields left out. *)
Definition Framework_name (f : Framework) : string :=
  match f with vanilla => "vanilla" | react => "react" | next => "next" end.

Definition SectionKind_name (k : SectionKind) : string :=
  match k with
  | hero => "hero" | features => "features" | menu => "menu"
  | gallery => "gallery" | pricing => "pricing" | contact => "contact"
  | faq => "faq"
  end.

Definition Language_name (l : Language) : string :=
  match l with fa => "fa" | en => "en" end.

Definition Tone_name (t : Tone) : string :=
  match t with formal => "formal" | casual => "casual" | playful => "playful" end.

Definition opt_member {A} (k : string) (f : A -> JsValue) (v : option A)
  : list (string * JsValue) :=
  match v with Some a => [(k, f a)] | None => [] end.

Definition Theme_json (t : Theme) : JsValue :=
  JObj ([("primary", JStr (primary t))]
          ++ opt_member "secondary" JStr (secondary t)
          ++ opt_member "font" JStr (theme_font t)
          ++ opt_member "dark" JBool (dark t))%list.

Definition Brand_json (b : Brand) : JsValue :=
  JObj (opt_member "name" JStr (brand_name b)
          ++ opt_member "tone" (fun t => JStr (Tone_name t)) (tone b))%list.

Definition BuildRequest_json (r : BuildRequest) : JsValue :=
  JObj ([ ("intent", JStr (intent r));
          ("framework", JStr (Framework_name (framework r)));
          ("theme", Theme_json (theme r));
          ("sections", JArr (map (fun k => JStr (SectionKind_name k)) (req_sections r)));
          ("language", JStr (Language_name (req_language r))) ]
          ++ opt_member "brand" Brand_json (brand r))%list.

(** The constraints of the data model on a request. *)
Definition BuildRequest_valid (r : BuildRequest) : Prop :=
  3 <= String_length (intent r) <= 2000 /\ req_sections r <> [].

(** What a field schema says of the member [k] of a raw object: whether it
    accepts it, and the issues it raises. *)
Definition verdict {A} (r : Parsed A) : bool * list ZodIssue :=
  match r with
  | Valid _ => (true, [])
  | Invalid issues => (false, issues)
  end.

Definition field_verdict (k : string) (members : list (string * JsValue))
  : bool * list ZodIssue :=
  let at_field {A} (s : Schema A) := verdict (s [Key k] (lookup k members)) in
  if k =? "intent" then at_field IntentSchema
  else if k =? "framework" then at_field FrameworkSchema
  else if k =? "theme" then at_field ThemeSchema
  else if k =? "sections" then at_field SectionsSchema
  else if k =? "language" then at_field LanguageSchema
  else if k =? "brand" then at_field (z_optional BrandSchema)
  else (true, []).

Definition field_issues (k : string) (members : list (string * JsValue))
  : list ZodIssue :=
  snd (field_verdict k members).

Definition schema_fields : list string :=
  ["intent"; "framework"; "theme"; "sections"; "language"; "brand"].

(** A field of the schema whose value in a raw object is rejected. *)
Definition field_rejected (k : string) (members : list (string * JsValue)) : Prop :=
  In k schema_fields /\ fst (field_verdict k members) = false.

(** An issue that names the field [k]. *)
Definition names_field (k : string) (i : ZodIssue) : Prop :=
  exists rest, issue_path i = Key k :: rest.

(** The react flavor defines a component for these types only. *)
Definition react_component (s : Section) : bool :=
  (section_type s =? "hero") || (section_type s =? "features").

(** A result that is well reported at [p]: when it is invalid it has an
    issue, and every issue lies at or below [p]. *)
Definition reported {A} (p : list PathSeg) (r : Parsed A) : Prop :=
  (forall issues, r = Invalid issues -> issues <> [])
  /\ (forall i, In i (issues_of r) -> exists rest, issue_path i = (p ++ rest)%list).

(** The exceptions of the generator: a [TypeError] with a message. *)
Definition generator_error (e : Exn) : Prop :=
  exists m, e = TypeError m /\ m <> EmptyString.

End Spec.

(* ------------------------------------------------------------------ *)
(** ** Sample plans and requests *)
(* ------------------------------------------------------------------ *)

Module Samples.
Import Js Validation.

(** A plan with one section of a type the generator does not know. *)
Definition gallery_section : Section :=
  mkSection "s1" "gallery" [("k", JStr "v")].

Definition gallery_plan : SitePlan :=
  mkSitePlan (mkMeta "Shop" "A shop" "en") (mkAssets [])
    [gallery_section] (mkStyle [] None).

(** A Persian plan with no section and no colour. *)
Definition persian_plan : SitePlan :=
  mkSitePlan (mkMeta "Nan" "Bakery" "fa") (mkAssets []) [] (mkStyle [] None).

(** The same plan with an image. *)
Definition persian_plan_with_image : SitePlan :=
  mkSitePlan (mkMeta "Nan" "Bakery" "fa")
    (mkAssets [mkImage "img1" (Some "bread") None]) [] (mkStyle [] None).

(** A features section whose [items] is a string, not an array. *)
Definition bad_items_plan : SitePlan :=
  mkSitePlan (mkMeta "Shop" "A shop" "en") (mkAssets [])
    [mkSection "f1" "features" [("items", JStr "none")]] (mkStyle [] None).

(** Scenario A of the specification. *)
Definition bakery_request : BuildRequest :=
  mkBuildRequest "A bakery site" vanilla (mkTheme "#000000" None None None)
    [hero] en None.

(** A raw request whose only member is an empty [sections] list. *)
Definition empty_sections_body : list (string * JsValue) :=
  [("sections", JArr [])].

(** A completion service that always answers with one choice, a reader of
    its text, and a world in which nothing has happened yet. *)
Definition steady_service (_ : BuildRequest) : Outcome (list Ai.Choice) :=
  Return [Ai.mkChoice (Some (Some "{...}"))].

Definition steady_parse (_ : string) : Outcome SitePlan :=
  Return persian_plan.

Definition fresh_world : Effects.World := Effects.mkWorld [] [].

End Samples.

(* ------------------------------------------------------------------ *)
(** ** The other schemas of [validation.ts] *)
(* ------------------------------------------------------------------ *)

Module Schemas.
Import Js Validation.

(** [z.any()]: whatever is there, [undefined] included. *)
Inductive Any := Defined (v : JsValue) | Undefined.

Definition z_any : Schema Any :=
  fun _ v =>
    match v with
    | Some x => Valid (Defined x)
    | None => Valid Undefined
    end.

(** [z.array(elem)], with no bound on the length. *)
Definition z_array {A} (elem : Schema A) : Schema (list A) :=
  fun path v =>
    match v with
    | Some (JArr elems) => parse_elems elem path 0 elems
    | _ => Invalid [mkIssue invalid_type path None]
    end.

(** The members of a record, each value parsed at its key; zod leaves a
    member named [__proto__] out of the object it builds. *)
Fixpoint parse_members {A} (elem : Schema A) (path : list PathSeg)
         (l : list (string * JsValue)) : Parsed (list (string * A)) :=
  match l with
  | [] => Valid []
  | kv :: r =>
      ap (ap (Valid (fun a rest =>
                       if fst kv =? "__proto__" then rest else (fst kv, a) :: rest))
             (elem (path ++ [Key (fst kv)])%list (Some (snd kv))))
         (parse_members elem path r)
  end.

(** [z.record(elem)]: an object with any keys. *)
Definition z_record {A} (elem : Schema A) : Schema (list (string * A)) :=
  fun path v =>
    match v with
    | Some (JObj members) => parse_members elem path members
    | _ => Invalid [mkIssue invalid_type path None]
    end.

(** The members of a parsed record of [z.any()] that hold a value; reading
    a member that holds [undefined] is reading an absent one. *)
Definition defined_members (l : list (string * Any)) : list (string * JsValue) :=
  flat_map (fun kv =>
              match snd kv with
              | Defined v => [(fst kv, v)]
              | Undefined => []
              end) l.

Definition MetaSchema : Schema Meta :=
  z_object (fun field =>
    ap (ap (ap (Valid mkMeta)
      (field _ "title" (z_string [])))
      (field _ "description" (z_string [])))
      (field _ "language" (z_string []))).

Definition ImageSchema : Schema Image :=
  z_object (fun field =>
    ap (ap (ap (Valid mkImage)
      (field _ "id" (z_string [])))
      (field _ "prompt" (z_optional (z_string []))))
      (field _ "url" (z_optional (z_string [])))).

Definition AssetsSchema : Schema Assets :=
  z_object (fun field =>
    ap (Valid mkAssets) (field _ "images" (z_array ImageSchema))).

Definition SectionSchema : Schema Section :=
  z_object (fun field =>
    ap (ap (ap (Valid (fun i t p => mkSection i t (defined_members p)))
      (field _ "id" (z_string [])))
      (field _ "type" (z_string [])))
      (field _ "props" (z_record z_any))).

Definition StyleSchema : Schema Style :=
  z_object (fun field =>
    ap (ap (Valid mkStyle)
      (field _ "colors" (z_record (z_string []))))
      (field _ "font" (z_optional (z_string [])))).

Definition SitePlanSchema : Schema SitePlan :=
  z_object (fun field =>
    ap (ap (ap (ap (Valid mkSitePlan)
      (field _ "meta" MetaSchema))
      (field _ "assets" AssetsSchema))
      (field _ "sections" (z_array SectionSchema)))
      (field _ "style" StyleSchema)).

Definition FileSchema : Schema GeneratedFile :=
  z_object (fun field =>
    ap (ap (Valid mkFile)
      (field _ "path" (z_string [])))
      (field _ "content" (z_string []))).

Definition GeneratedFilesSchema : Schema GeneratedFiles :=
  z_object (fun field =>
    ap (Valid mkFiles) (field _ "files" (z_array FileSchema))).

End Schemas.

(* ------------------------------------------------------------------ *)
(** ** The user prompt, [prompts.ts] *)
(* ------------------------------------------------------------------ *)

Module Prompts.
Import Js Validation.

(** [req.brand?.tone ?? 'neutral']. *)
Definition tone_or_neutral (req : BuildRequest) : string :=
  match brand req with
  | Some b =>
      match tone b with
      | Some t => Spec.Tone_name t
      | None => "neutral"
      end
  | None => "neutral"
  end.

(** [USER_PROMPT(req)]; the request is the object the schema returned, whose
    members are those of [Spec.BuildRequest_json]. *)
Definition USER_PROMPT (req : BuildRequest) : string :=
  lines
    [ EmptyString;
      "Build a SitePlan for this request:";
      JSON_stringify2 (Spec.BuildRequest_json req);
      EmptyString;
      "Rules:";
      "- language: " ++ Spec.Language_name (req_language req);
      "- sections must match requested types.";
      "- text must be realistic and concise.";
      "- for images, suggest alt texts and use placeholder URLs like "
        ++ q "https://via.placeholder.com/800x400";
      "- keep brand tone: " ++ tone_or_neutral req ++ ".";
      "- Generate actual content in the specified language ("
        ++ (match req_language req with fa => "Persian/Farsi" | en => "English" end)
        ++ ")";
      "- For Persian text, use proper Persian/Farsi characters and RTL-appropriate content";
      EmptyString ].

End Prompts.

(* ------------------------------------------------------------------ *)
(** ** The archive builder and the export route *)
(* ------------------------------------------------------------------ *)

Module ExportRoute.
Import Js Validation Effects Schemas.
Local Open Scope async_scope.

(** The body of an export response: the archive buffer, or [{ error }]. *)
Inductive Body (Buffer : Type) :=
| Archive (buffer : Buffer)
| Failure (error : string).
Arguments Archive {Buffer} buffer.
Arguments Failure {Buffer} error.

Record Response (Buffer : Type) := mkResponse {
  status : nat;
  headers : list (string * string);
  body : Body Buffer
}.
Arguments mkResponse {Buffer} status headers body.

Section Archive.

(** The JSZip library: an archive under construction, [new JSZip()],
    [zip.file(name, data)] and [zip.generateAsync(...)], whose promise may
    be rejected. *)
Variable Zip Buffer : Type.
Variable JSZip_new : Zip.
Variable JSZip_file : Zip -> string -> string -> Zip.
Variable generateAsync : Zip -> Outcome Buffer.

(** The [message] of a [ZodError], which zod computes from its issues. *)
Variable ZodError_message : list ZodIssue -> string.

(** The archive after [files.forEach(file => zip.file(...))]. *)
Definition add_files (zip : Zip) (files : list GeneratedFile) : Zip :=
  fold_left (fun z file => JSZip_file z (path file) (content file)) files zip.

Definition zipFiles (files : list GeneratedFile) : Outcome Buffer :=
  generateAsync (add_files JSZip_new files).

Definition exn_message (e : Exn) : string :=
  match e with
  | NativeError _ message => message
  | ZodError errors => ZodError_message errors
  end.

(** The [catch] block of the export handler. *)
Definition on_error (error : Exn) : Async (Response Buffer) :=
  console_error "Export error:" error ;;
  ret (mkResponse 500 []
         (Failure (if exn_message error =? EmptyString
                   then "Failed to export files" else exn_message error))).

(** [POST(req)] of the export route; [req_json] is the outcome of
    [await req.json()] and [now] the text of [Date.now()] when the response
    is built. *)
Definition POST (now : string) (req_json : Outcome JsValue) : Async (Response Buffer) :=
  try_catch
    (body <- lift req_json ;;
     validatedData <- lift (parse GeneratedFilesSchema body) ;;
     buffer <- lift (zipFiles (files validatedData)) ;;
     ret (mkResponse 200
            [ ("Content-Type", "application/zip");
              ("Content-Disposition",
                "attachment; filename=" ++ q ("site-" ++ now ++ ".zip")) ]
            (Archive buffer)))
    on_error.

End Archive.

End ExportRoute.

(* ------------------------------------------------------------------ *)
(** ** The live preview, [components/LivePreview.tsx] *)
(* ------------------------------------------------------------------ *)

Module Preview.
Import Js Validation.

(** [String.prototype.endsWith]: some suffix of [s] is [suffix]. *)
Fixpoint endsWith (s suffix : string) : bool :=
  (s =? suffix) ||
  match s with
  | EmptyString => false
  | String _ s' => endsWith s' suffix
  end.

(** What is left of [s] after a prefix of the length of [p]. *)
Fixpoint drop_prefix (p s : string) : string :=
  match p, s with
  | String _ p', String _ s' => drop_prefix p' s'
  | _, _ => s
  end.

(** The text before and after the first occurrence of [pattern] in [s]. *)
Fixpoint split_at (pattern s : string) : option (string * string) :=
  if prefixb pattern s then Some (EmptyString, drop_prefix pattern s)
  else
    match s with
    | EmptyString => None
    | String c s' =>
        match split_at pattern s' with
        | Some (pre, post) => Some (String c pre, post)
        | None => None
        end
    end.

(** [GetSubstitution] for a string pattern, which has no captures: in the
    replacement [$$] stands for a dollar sign, [$&] for the matched text,
    [$`] for the text before it and [$'] for the text after it; every
    other character stands for itself. *)
Fixpoint GetSubstitution (matched pre post replacement : string) : string :=
  match replacement with
  | EmptyString => EmptyString
  | String a tl =>
      if Ascii.eqb a "$"%char then
        match tl with
        | String c r =>
            if Ascii.eqb c "$"%char then "$" ++ GetSubstitution matched pre post r
            else if Ascii.eqb c "&"%char then matched ++ GetSubstitution matched pre post r
            else if Ascii.eqb c "`"%char then pre ++ GetSubstitution matched pre post r
            else if Ascii.eqb c "'"%char then post ++ GetSubstitution matched pre post r
            else String a (GetSubstitution matched pre post tl)
        | EmptyString => String a EmptyString
        end
      else String a (GetSubstitution matched pre post tl)
  end.

(** [s.replace(pattern, replacement)] with a string pattern: the first
    occurrence only. *)
Definition replace (s pattern replacement : string) : string :=
  match split_at pattern s with
  | Some (pre, post) => pre ++ GetSubstitution pattern pre post replacement ++ post
  | None => s
  end.

(** The three files the preview looks for. *)
Definition htmlFile (files : list GeneratedFile) : option GeneratedFile :=
  find (fun f => (path f =? "index.html") || endsWith (path f) ".html") files.

Definition cssFile (files : list GeneratedFile) : option GeneratedFile :=
  find (fun f => (path f =? "styles.css") || endsWith (path f) ".css") files.

Definition jsFile (files : list GeneratedFile) : option GeneratedFile :=
  find (fun f => (path f =? "script.js") || endsWith (path f) ".js") files.

(** [renderHtml()] of the preview: the document shown in the frame. *)
Definition renderHtml (files : list GeneratedFile) : string :=
  match htmlFile files with
  | None => EmptyString
  | Some html =>
      let htmlContent := content html in
      let htmlContent :=
        match cssFile files with
        | Some css =>
            if negb (includes htmlContent "<style>")
            then replace htmlContent "</head>"
                   ("<style>" ++ content css ++ "</style>" ++ "</head>")
            else htmlContent
        | None => htmlContent
        end in
      match jsFile files with
      | Some js =>
          if negb (includes htmlContent "<script>")
          then replace htmlContent "</body>"
                 ("<script>" ++ content js ++ "</script>" ++ "</body>")
          else htmlContent
      | None => htmlContent
      end
  end.

End Preview.

(* ------------------------------------------------------------------ *)
(** ** The request bodies the pages send *)
(* ------------------------------------------------------------------ *)

Module Forms.
Import Js Validation.

(** The body [handleSubmit] of [ModernPromptForm] posts to the generate
    route, from the state of the form. *)
Definition ModernPromptForm_body (intent : string) (framework : Framework)
           (primaryColor : string) (sections : list string) (language : Language)
  : JsValue :=
  JObj [ ("intent", JStr intent);
         ("framework", JStr (Spec.Framework_name framework));
         ("theme", JObj [("primary", JStr primaryColor); ("dark", JBool false)]);
         ("sections", JArr (map JStr sections));
         ("language", JStr (Spec.Language_name language));
         ("brand", JObj [("tone", JStr "modern")]) ].

(** The body [handleQuickGenerate] of the home page posts, from the prompt. *)
Definition handleQuickGenerate_body (prompt : string) : JsValue :=
  JObj [ ("intent", JStr prompt);
         ("framework", JStr "vanilla");
         ("theme", JObj [ ("primary", JStr "#6B46C1"); ("secondary", JStr "#EC4899");
                          ("font", JStr "Inter"); ("dark", JBool false) ]);
         ("sections", JArr [JStr "hero"; JStr "features"; JStr "contact"]);
         ("language", JStr "en");
         ("brand", JObj [("name", JStr "Generated Site"); ("tone", JStr "casual")]) ].

(** The request the quick generation asks for. *)
Definition quick_request (prompt : string) : BuildRequest :=
  mkBuildRequest prompt vanilla
    (mkTheme "#6B46C1" (Some "#EC4899") (Some "Inter") (Some false))
    [hero; features; contact] en
    (Some (mkBrand (Some "Generated Site") (Some casual))).

(** [toggleSection] of the forms: the update of the list of sections. *)
Definition toggleSection (section : string) (prev : list string) : list string :=
  if existsb (String.eqb section) prev
  then filter (fun s => negb (s =? section)) prev
  else (prev ++ [section])%list.

End Forms.

(* ------------------------------------------------------------------ *)
(** ** More vocabulary *)
(* ------------------------------------------------------------------ *)

Module More.
Import Js Validation Codegen Spec.

(** The JSON form of a plan and of a file list. *)
Definition Meta_json (m : Meta) : JsValue :=
  JObj [ ("title", JStr (title m)); ("description", JStr (description m));
         ("language", JStr (language m)) ].

Definition Image_json (i : Image) : JsValue :=
  JObj ([("id", JStr (image_id i))]
          ++ opt_member "prompt" JStr (prompt i)
          ++ opt_member "url" JStr (url i))%list.

Definition Section_json (s : Section) : JsValue :=
  JObj [ ("id", JStr (section_id s)); ("type", JStr (section_type s));
         ("props", JObj (props s)) ].

Definition Style_json (st : Style) : JsValue :=
  JObj ([("colors", colors_value (colors st))]
          ++ opt_member "font" JStr (font st))%list.

Definition SitePlan_json (plan : SitePlan) : JsValue :=
  JObj [ ("meta", Meta_json (meta plan));
         ("assets", JObj [("images", JArr (map Image_json (images (assets plan))))]);
         ("sections", JArr (map Section_json (sections plan)));
         ("style", Style_json (style plan)) ].

Definition File_json (f : GeneratedFile) : JsValue :=
  JObj [("path", JStr (path f)); ("content", JStr (content f))].

Definition GeneratedFiles_json (out : GeneratedFiles) : JsValue :=
  JObj [("files", JArr (map File_json (files out)))].

(** The colours [renderCss] reads. *)
Definition css_colors : list string := ["text"; "background"; "primary"; "secondary"].

(** A path that is not empty and does not start at the root. *)
Definition relative_path (p : string) : bool :=
  match p with
  | EmptyString => false
  | String c _ => negb (Ascii.eqb c "/"%char)
  end.

(** The root element of the vanilla document and of the next layout. *)
Definition html_open_tag (lang : string) : string :=
  "<html lang=" ++ q lang ++ " "
    ++ (if lang =? "fa" then "dir=" ++ q "rtl" else EmptyString) ++ ">".

(** Whether a character is among those of a string. *)
Fixpoint has_char (c : ascii) (s : string) : bool :=
  match s with
  | EmptyString => false
  | String a s' => Ascii.eqb a c || has_char c s'
  end.

(** [x] is the name of no section kind. *)
Definition no_section_kind (x : JsValue) : Prop :=
  forall k, x <> JStr (SectionKind_name k).

(** No member of a property list is named [__proto__]. *)
Definition plain_keys {A} (l : list (string * A)) : Prop :=
  forall k v, In (k, v) l -> k <> "__proto__".

Definition plain_plan (plan : SitePlan) : Prop :=
  plain_keys (colors (style plan))
  /\ forall s, In s (sections plan) -> plain_keys (props s).

(** A plan with a hero, a features and a gallery section, and colours. *)
Definition shop_plan : SitePlan :=
  mkSitePlan (mkMeta "Shop" "A shop" "en")
    (mkAssets [mkImage "img1" (Some "a loaf") None])
    [ mkSection "h" "hero" [("title", JStr "Hello"); ("cta", JStr "Buy")];
      mkSection "f" "features"
        [("items", JArr [JObj [("title", JStr "Fresh"); ("description", JStr "Daily")]])];
      mkSection "g" "gallery" [("photos", JArr [JNum "3"])] ]
    (mkStyle [("primary", "#112233"); ("accent", "#abcdef")] (Some "Inter")).

End More.

(* ------------------------------------------------------------------ *)
(** ** Strings, lists and the exception monad *)
(* ------------------------------------------------------------------ *)

Module Facts.
Import Js.

Lemma append_assoc (a b c : string) : (a ++ b) ++ c = a ++ b ++ c.
Proof. induction a as [|x a IH]; simpl; [reflexivity | now rewrite IH]. Qed.

Lemma append_empty_r (a : string) : a ++ EmptyString = a.
Proof. induction a as [|x a IH]; simpl; [reflexivity | now rewrite IH]. Qed.

Lemma occurs_in_middle (a s b : string) : occurs_in s (a ++ s ++ b).
Proof. now exists a, b. Qed.

Lemma occurs_in_refl (s : string) : occurs_in s s.
Proof. exists EmptyString, EmptyString. simpl. now rewrite append_empty_r. Qed.

Lemma occurs_in_append_left (s t a : string) :
  occurs_in s t -> occurs_in s (a ++ t).
Proof.
  intros (pre & post & ->). exists (a ++ pre), post.
  now rewrite append_assoc.
Qed.

Lemma occurs_in_append_right (s t b : string) :
  occurs_in s t -> occurs_in s (t ++ b).
Proof.
  intros (pre & post & ->). exists pre, (post ++ b).
  now rewrite !append_assoc.
Qed.

Lemma occurs_in_trans (s t u : string) :
  occurs_in s t -> occurs_in t u -> occurs_in s u.
Proof.
  intros Hst (pre & post & ->).
  now apply occurs_in_append_left, occurs_in_append_right.
Qed.

Lemma occurs_in_join (sep : string) (l : list string) (x : string) :
  In x l -> occurs_in x (join sep l).
Proof.
  unfold join. induction l as [|y l IH]; [contradiction|].
  intros [-> | Hin].
  - destruct l as [|z l]; simpl.
    + apply occurs_in_refl.
    + apply (occurs_in_middle EmptyString).
  - destruct l as [|z l]; [contradiction|].
    change (String.concat sep (y :: z :: l))
      with (y ++ sep ++ String.concat sep (z :: l)).
    now apply occurs_in_append_left, occurs_in_append_left, IH.
Qed.

(** A piece of a line of a template occurs in the template. *)
Lemma occurs_in_lines (ls : list string) (line x : string) :
  In line ls -> occurs_in x line -> occurs_in x (lines ls).
Proof.
  intros Hin Hx. eapply occurs_in_trans; [exact Hx|].
  now apply occurs_in_join.
Qed.

Lemma occurs_in_cons (s t : string) (c : ascii) :
  occurs_in s t -> occurs_in s (String c t).
Proof. apply (occurs_in_append_left (String c EmptyString)). Qed.

Lemma occurs_in_prefix (s b : string) : occurs_in s (s ++ b).
Proof. apply (occurs_in_middle EmptyString). Qed.

(** Finds a named piece in a line whose literal start has been
    evaluated away. *)
Ltac occurs_in_line :=
  repeat apply occurs_in_cons;
  first [ apply occurs_in_refl | apply occurs_in_prefix ].

(** Finds a named piece in the [n]-th line after the first of a
    template. *)
Tactic Notation "occurs_in_template" integer(n) :=
  eapply occurs_in_lines; [do n right; left; reflexivity | occurs_in_line].

Lemma prefixb_spec (p s : string) :
  prefixb p s = true <-> exists r, s = p ++ r.
Proof.
  revert s. induction p as [|a p IH]; intros s; simpl.
  - split; [now exists s | reflexivity].
  - destruct s as [|b s].
    + split; [discriminate | now intros (r & Hr)].
    + rewrite andb_true_iff, Ascii.eqb_eq, IH. split.
      * intros (-> & r & ->). now exists r.
      * intros (r & Hr). injection Hr as -> ->. split; [reflexivity | now exists r].
Qed.

Lemma includes_spec (t s : string) :
  includes t s = true <-> occurs_in s t.
Proof.
  split.
  - induction t as [|c t IH]; simpl; rewrite orb_true_iff.
    + intros [H | H]; [|discriminate].
      apply prefixb_spec in H as (r & ->). apply (occurs_in_middle EmptyString).
    + intros [H | H].
      * apply prefixb_spec in H as (r & ->). apply (occurs_in_middle EmptyString).
      * apply (occurs_in_append_left (String c EmptyString)). now apply IH.
  - intros (pre & post & ->). induction pre as [|c pre IH].
    + simpl (EmptyString ++ _).
      assert (Hp : prefixb s (s ++ post) = true) by (apply prefixb_spec; now exists post).
      destruct (s ++ post); simpl; simpl in Hp; now rewrite Hp.
    + simpl. now rewrite IH, orb_true_r.
Qed.

Lemma not_occurs_in (t s : string) :
  includes t s = false -> ~ occurs_in s t.
Proof.
  intros Hf Ho. apply includes_spec in Ho. congruence.
Qed.

(** *** The exception monad *)

Lemma bind_Return {A B} (c : Outcome A) (k : A -> Outcome B) (b : B) :
  bind c k = Return b -> exists a, c = Return a /\ k a = Return b.
Proof. destruct c as [a|e]; simpl; [now exists a | discriminate]. Qed.

Lemma bind_Throw {A B} (c : Outcome A) (k : A -> Outcome B) (e : Exn) :
  bind c k = Throw e -> c = Throw e \/ exists a, c = Return a /\ k a = Throw e.
Proof. destruct c as [a|e']; simpl; intros H; [right; now exists a | left; now injection H as ->]. Qed.

Lemma mapM_In {A B} (f : A -> Outcome B) (l : list A) (ys : list B) (x : A) :
  mapM f l = Return ys -> In x l -> exists y, f x = Return y /\ In y ys.
Proof.
  revert ys. induction l as [|a l IH]; intros ys H Hin; [contradiction|].
  simpl in H. apply bind_Return in H as (y & Hy & H).
  apply bind_Return in H as (ys' & Hys & H). injection H as <-.
  destruct Hin as [-> | Hin].
  - exists y. split; [assumption | now left].
  - destruct (IH _ Hys Hin) as (y' & Hy' & Hin'). exists y'. split; [assumption | now right].
Qed.

Lemma mapM_total {A B} (f : A -> Outcome B) (l : list A) :
  (forall x, In x l -> exists y, f x = Return y) -> exists ys, mapM f l = Return ys.
Proof.
  induction l as [|a l IH]; intros H; simpl.
  - now exists [].
  - destruct (H a (or_introl eq_refl)) as (y & ->).
    destruct IH as (ys & ->); [intros x Hx; apply H; now right|].
    now exists (y :: ys).
Qed.

Lemma mapM_Throw {A B} (f : A -> Outcome B) (l : list A) (e : Exn) :
  mapM f l = Throw e -> exists x, In x l /\ f x = Throw e.
Proof.
  induction l as [|a l IH]; simpl; [discriminate|]. intros H.
  apply bind_Throw in H as [H | (y & _ & H)].
  - exists a. split; [now left | assumption].
  - apply bind_Throw in H as [H | (ys & _ & H)]; [|discriminate].
    destruct (IH H) as (x & Hx & Hf). exists x. split; [now right | assumption].
Qed.

(** *** Induction on values, through arrays and objects *)

Fixpoint JsValue_induction (P : JsValue -> Prop)
         (Hnull : P JNull) (Hbool : forall b, P (JBool b))
         (Hnum : forall t, P (JNum t)) (Hstr : forall s, P (JStr s))
         (Harr : forall l, Forall P l -> P (JArr l))
         (Hobj : forall m, Forall (fun kv => P (snd kv)) m -> P (JObj m))
         (v : JsValue) {struct v} : P v :=
  match v with
  | JNull => Hnull
  | JBool b => Hbool b
  | JNum t => Hnum t
  | JStr s => Hstr s
  | JArr l =>
      Harr l ((fix all (l : list JsValue) : Forall P l :=
                 match l with
                 | [] => Forall_nil P
                 | x :: r =>
                     Forall_cons x
                       (JsValue_induction Hnull Hbool Hnum Hstr Harr Hobj x) (all r)
                 end) l)
  | JObj m =>
      Hobj m ((fix all (m : list (string * JsValue))
                 : Forall (fun kv => P (snd kv)) m :=
                 match m with
                 | [] => Forall_nil _
                 | kv :: r =>
                     Forall_cons kv
                       (JsValue_induction Hnull Hbool Hnum Hstr Harr Hobj (snd kv))
                       (all r)
                 end) m)
  end.

End Facts.

(* ------------------------------------------------------------------ *)
(** ** When the generator returns *)
(* ------------------------------------------------------------------ *)

Module CodegenFacts.
Import Js Validation Codegen Spec Facts.

Lemma ToString_printable (v : JsValue) :
  printable v = true -> exists s, ToString v = Return s.
Proof.
  induction v as [| b | t | s | l IH | m _] using JsValue_induction;
    simpl; intros Hp; eauto.
  - destruct b; eauto.
  - match goal with
    | |- exists s, bind ?c _ = _ =>
        enough (exists ss, c = Return ss) as (ss & ->) by (simpl; eauto)
    end.
    induction IH as [|x r Hx _ IHr]; [eauto|].
    simpl in Hp. apply andb_true_iff in Hp as (Hpx & Hpr).
    destruct (IHr Hpr) as (ss & Hss). destruct (Hx Hpx) as (s & Hs).
    rewrite Hss.
    destruct x; try (rewrite Hs); simpl; eauto.
  - destruct (has_key "toString" m); [discriminate | eauto].
Qed.

Lemma or_default_printable (v : option JsValue) (d : string) :
  printable_opt v = true -> exists s, or_default v d = Return s.
Proof.
  destruct v as [x|]; simpl; [|eauto]. intros Hp.
  destruct (truthy x); [now apply ToString_printable | eauto].
Qed.

Lemma cta_button_printable (tag : string) (v : option JsValue) :
  printable_opt v = true -> exists s, cta_button tag v = Return s.
Proof.
  unfold cta_button. destruct v as [x|]; simpl; [|eauto]. intros Hp.
  destruct (truthy x); [|eauto].
  destruct (ToString_printable x Hp) as (s & ->). simpl. eauto.
Qed.

Lemma ToString_opt_printable (v : option JsValue) :
  printable_opt v = true -> exists s, ToString_opt v = Return s.
Proof.
  destruct v as [x|]; simpl; [apply ToString_printable | eauto].
Qed.

Lemma renderHtml_item_ok (item : JsValue) :
  item_ok item = true -> exists s, renderHtml_item item = Return s.
Proof.
  unfold renderHtml_item.
  destruct item; simpl; intros H; try discriminate; eauto.
  apply andb_true_iff in H as (Ht & Hd).
  destruct (ToString_opt_printable _ Ht) as (ts & ->).
  destruct (ToString_opt_printable _ Hd) as (ds & ->).
  simpl. eauto.
Qed.

Lemma items_map_ok (items : option JsValue) :
  items_ok items = true -> exists cards, items_map items renderHtml_item = Return cards.
Proof.
  unfold items_ok, items_map. destruct items as [v|]; [|eauto].
  destruct (truthy v); [|eauto].
  destruct v; try discriminate. intros H.
  apply mapM_total. intros x Hx. apply renderHtml_item_ok.
  rewrite forallb_forall in H. now apply H.
Qed.

Lemma renderHtml_section_ok (s : Section) :
  section_ok vanilla s = true -> exists r, renderHtml_section s = Return r.
Proof.
  unfold section_ok, renderHtml_section, printable_at; cbn [forallb].
  destruct (section_type s =? "hero").
  { rewrite !andb_true_iff. intros (Ht & Hs & Hc & _).
    destruct (or_default_printable _ "Welcome" Ht) as (x1 & ->).
    destruct (or_default_printable _ EmptyString Hs) as (x2 & ->).
    destruct (cta_button_printable ("<button class=" ++ q "cta-button" ++ ">") _ Hc)
      as (x3 & ->).
    simpl. eauto. }
  destruct (section_type s =? "features").
  { rewrite !andb_true_iff. intros ((Ht & _) & Hi).
    destruct (or_default_printable _ "Features" Ht) as (x1 & ->).
    destruct (items_map_ok _ Hi) as (x2 & ->).
    simpl. eauto. }
  destruct (section_type s =? "contact"); [|eauto].
  rewrite !andb_true_iff. intros (Ht & He & Hp & Ha & _).
  destruct (or_default_printable _ "Contact" Ht) as (x1 & ->).
  destruct (or_default_printable _ EmptyString He) as (x2 & ->).
  destruct (or_default_printable _ EmptyString Hp) as (x3 & ->).
  destruct (or_default_printable _ EmptyString Ha) as (x4 & ->).
  simpl. eauto.
Qed.

Lemma renderReactApp_section_ok (s : Section) :
  section_ok react s = true -> exists r, renderReactApp_section s = Return r.
Proof.
  unfold section_ok, renderReactApp_section, printable_at; cbn [forallb].
  destruct (section_type s =? "hero").
  { rewrite !andb_true_iff. intros (Ht & Hs & Hc & _).
    destruct (or_default_printable _ "Welcome" Ht) as (x1 & ->).
    destruct (or_default_printable _ EmptyString Hs) as (x2 & ->).
    destruct (cta_button_printable ("<button className=" ++ q "cta-button" ++ ">") _ Hc)
      as (x3 & ->).
    simpl. eauto. }
  destruct (section_type s =? "features"); [|eauto].
  rewrite !andb_true_iff. intros (Ht & _).
  destruct (or_default_printable _ "Features" Ht) as (x1 & ->).
  simpl. eauto.
Qed.

Lemma renderNextPage_section_ok (s : Section) :
  section_ok next s = true -> exists r, renderNextPage_section s = Return r.
Proof.
  unfold section_ok, renderNextPage_section, printable_at; cbn [forallb].
  rewrite !andb_true_iff. intros (Ht & _).
  destruct (or_default_printable _ (section_type s) Ht) as (x1 & ->).
  simpl. eauto.
Qed.

Lemma sections_ok (fw : Framework) (f : Section -> Outcome string) (plan : SitePlan) :
  (forall s, section_ok fw s = true -> exists r, f s = Return r) ->
  plan_ok fw plan = true -> exists rs, mapM f (sections plan) = Return rs.
Proof.
  intros Hf Hp. apply mapM_total. intros s Hs. apply Hf.
  unfold plan_ok in Hp. rewrite forallb_forall in Hp. now apply Hp.
Qed.

(** The generator returns on every plan whose sections it can print. *)
Lemma buildFilesFromPlan_returns (plan : SitePlan) (fw : Framework) :
  plan_ok fw plan = true -> exists out, buildFilesFromPlan plan fw = Return out.
Proof.
  intros Hp. destruct fw; unfold buildFilesFromPlan.
  - unfold renderHtml.
    destruct (@sections_ok vanilla renderHtml_section plan renderHtml_section_ok Hp)
      as (rs & ->).
    simpl. eauto.
  - unfold renderReactApp.
    destruct (@sections_ok react renderReactApp_section plan renderReactApp_section_ok Hp)
      as (rs & ->).
    simpl. eauto.
  - unfold renderNextPage.
    destruct (@sections_ok next renderNextPage_section plan renderNextPage_section_ok Hp)
      as (rs & ->).
    simpl. eauto.
Qed.

(** Whatever the generator returns has the paths of the flavor. *)
Lemma buildFilesFromPlan_paths (plan : SitePlan) (fw : Framework) (out : GeneratedFiles) :
  buildFilesFromPlan plan fw = Return out -> map path (files out) = flavor_paths fw.
Proof.
  destruct fw; unfold buildFilesFromPlan; intros H;
    apply bind_Return in H as (x & _ & H); injection H as <-; reflexivity.
Qed.

(** *** The converse: what returns was printable *)

Lemma falsy_printable (v : JsValue) : truthy v = false -> printable v = true.
Proof. destruct v; cbn; congruence. Qed.

Lemma ToString_returns (v : JsValue) (s : string) :
  ToString v = Return s -> printable v = true.
Proof.
  revert s.
  induction v as [| b | t | s0 | l IH | m _] using JsValue_induction;
    cbn [ToString printable]; intros s H; try reflexivity.
  - apply bind_Return in H as (parts & H & _). revert parts H.
    induction IH as [|x r Hx _ IHr]; intros parts H; [reflexivity|].
    apply bind_Return in H as (y & Hy & H).
    apply bind_Return in H as (ys & Hys & _).
    cbn [forallb]. rewrite (IHr _ Hys), andb_true_r.
    destruct x; try reflexivity; now apply Hx with y.
  - destruct (has_key "toString" m); [discriminate | reflexivity].
Qed.

Lemma ToString_opt_returns (v : option JsValue) (s : string) :
  ToString_opt v = Return s -> printable_opt v = true.
Proof. destruct v; [apply ToString_returns | reflexivity]. Qed.

Lemma or_default_returns (v : option JsValue) (d s : string) :
  or_default v d = Return s -> printable_opt v = true.
Proof.
  destruct v as [x|]; cbn; [|reflexivity].
  destruct (truthy x) eqn:E; [apply ToString_returns | intros _; now apply falsy_printable].
Qed.

Lemma cta_button_returns (tag : string) (v : option JsValue) (s : string) :
  cta_button tag v = Return s -> printable_opt v = true.
Proof.
  unfold cta_button. destruct v as [x|]; cbn; [|reflexivity].
  destruct (truthy x) eqn:E; [|intros _; now apply falsy_printable].
  intros H. apply bind_Return in H as (c & H & _). now apply ToString_returns with c.
Qed.

Lemma renderHtml_item_returns (item : JsValue) (s : string) :
  renderHtml_item item = Return s -> item_ok item = true.
Proof.
  unfold renderHtml_item. intros H.
  apply bind_Return in H as (t & Ht & H). apply bind_Return in H as (ts & Hts & H).
  apply bind_Return in H as (d & Hd & H). apply bind_Return in H as (ds & Hds & _).
  destruct item; try discriminate; try reflexivity.
  cbn in Ht, Hd. injection Ht as <-. injection Hd as <-.
  cbn [item_ok]. now rewrite (ToString_opt_returns _ Hts), (ToString_opt_returns _ Hds).
Qed.

Lemma items_map_returns (items : option JsValue) (cards : list string) :
  items_map items renderHtml_item = Return cards -> items_ok items = true.
Proof.
  unfold items_map, items_ok. destruct items as [v|]; [|reflexivity].
  destruct (truthy v); [|reflexivity].
  destruct v; try discriminate. intros H.
  apply forallb_forall. intros x Hx.
  destruct (mapM_In _ _ x H Hx) as (y & Hy & _). now apply renderHtml_item_returns with y.
Qed.

(** Reads a returned section off as the printability of what it printed. *)
Ltac returned H :=
  repeat match type of H with
         | bind _ _ = Return _ =>
             let E := fresh "E" in
             apply bind_Return in H as (? & E & H);
             first [ apply or_default_returns in E
                   | apply cta_button_returns in E
                   | apply items_map_returns in E ]
         end.

Lemma section_returns (fw : Framework) (s : Section) (r : string) :
  match fw with
  | vanilla => renderHtml_section s
  | react => renderReactApp_section s
  | next => renderNextPage_section s
  end = Return r ->
  section_ok fw s = true.
Proof.
  destruct fw;
    unfold section_ok, renderHtml_section, renderReactApp_section,
      renderNextPage_section, printable_at; cbn [forallb];
    repeat match goal with
           | |- (if ?c then _ else _) = _ -> _ => destruct c
           end;
    intros H; returned H;
    repeat match goal with E : _ = true |- _ => rewrite E; clear E end;
    reflexivity.
Qed.

Lemma sections_return (fw : Framework) (f : Section -> Outcome string)
      (plan : SitePlan) (rs : list string) :
  (forall s r, f s = Return r -> section_ok fw s = true) ->
  mapM f (sections plan) = Return rs -> plan_ok fw plan = true.
Proof.
  intros Hf H. apply forallb_forall. intros s Hs.
  destruct (mapM_In _ _ s H Hs) as (r & Hr & _). now apply Hf with r.
Qed.

(** The generator returns on the plans it can print and on no other. *)
Lemma buildFilesFromPlan_returns_iff (plan : SitePlan) (fw : Framework) :
  plan_ok fw plan = true <-> exists out, buildFilesFromPlan plan fw = Return out.
Proof.
  split; [apply buildFilesFromPlan_returns|]. intros (out & H).
  destruct fw; unfold buildFilesFromPlan, renderHtml, renderReactApp, renderNextPage in H;
    apply bind_Return in H as (x & H & _);
    apply bind_Return in H as (rs & H & _);
    revert H; apply sections_return; intros s r.
  - apply (@section_returns vanilla).
  - apply (@section_returns react).
  - apply (@section_returns next).
Qed.

End CodegenFacts.

(* ------------------------------------------------------------------ *)
(** ** Sections of unknown type *)
(* ------------------------------------------------------------------ *)

Module Fallback.
Import Js Validation Codegen Spec Samples Facts CodegenFacts.

Lemma unknown_type (t : string) :
  known_type t = false ->
  (t =? "hero") = false /\ (t =? "features") = false /\ (t =? "contact") = false.
Proof.
  unfold known_type. rewrite !orb_false_iff. tauto.
Qed.

Lemma renderHtml_section_unknown (s : Section) :
  known_type (section_type s) = false ->
  renderHtml_section s = Return (fallback_fragment s).
Proof.
  intros H. apply unknown_type in H as (H1 & H2 & H3).
  unfold renderHtml_section. now rewrite H1, H2, H3.
Qed.

(** [index.html] holds the fragments of all sections. *)
Lemma renderHtml_fragments (plan : SitePlan) (html : string) :
  renderHtml plan = Return html ->
  exists frags, mapM renderHtml_section (sections plan) = Return frags
    /\ occurs_in (join nl frags) html.
Proof.
  unfold renderHtml. intros H. apply bind_Return in H as (frags & Hf & H).
  injection H as <-. exists frags. split; [assumption|].
  occurs_in_template 11.
Qed.

Lemma renderNextPage_blocks (plan : SitePlan) (page : string) :
  renderNextPage plan = Return page ->
  exists blocks, mapM renderNextPage_section (sections plan) = Return blocks
    /\ occurs_in (join EmptyString blocks) page.
Proof.
  unfold renderNextPage. intros H. apply bind_Return in H as (blocks & Hb & H).
  injection H as <-. exists blocks. split; [assumption|].
  occurs_in_template 6.
Qed.

Lemma renderNextPage_section_props (s : Section) (block : string) :
  renderNextPage_section s = Return block ->
  occurs_in (JSON_stringify2 (JObj (props s))) block.
Proof.
  unfold renderNextPage_section. intros H. apply bind_Return in H as (t & _ & H).
  injection H as <-.
  occurs_in_template 3.
Qed.

(** Sections that define no component leave no trace in the react
    fragments. *)
Lemma react_fragments_filter (l : list Section) :
  bind (mapM renderReactApp_section l) (fun frags => Return (filter Boolean frags))
  = bind (mapM renderReactApp_section (filter react_component l))
         (fun frags => Return (filter Boolean frags)).
Proof.
  induction l as [|s l IH]; [reflexivity|].
  cbn [filter]. unfold react_component at 1.
  destruct (section_type s =? "hero") eqn:Eh;
    [|destruct (section_type s =? "features") eqn:Ef]; cbn [orb mapM].
  1,2: destruct (renderReactApp_section s) as [y|e]; cbn [bind]; [|reflexivity];
       destruct (mapM renderReactApp_section l) as [ys|e];
       destruct (mapM renderReactApp_section (filter react_component l)) as [zs|e'];
       cbn [bind] in *; try congruence;
       injection IH as IH; cbn [filter]; now rewrite IH.
  unfold renderReactApp_section at 1. rewrite Eh, Ef. cbn [bind].
  rewrite <- IH.
  destruct (mapM renderReactApp_section l) as [ys|e]; reflexivity.
Qed.

Lemma renderReactApp_filter (plan : SitePlan) :
  renderReactApp plan
  = renderReactApp (with_sections (filter react_component (sections plan)) plan).
Proof.
  unfold renderReactApp. cbn [sections with_sections].
  pose proof (react_fragments_filter (sections plan)) as H.
  destruct (mapM renderReactApp_section (sections plan)) as [ys|e];
    destruct (mapM renderReactApp_section (filter react_component (sections plan)))
      as [zs|e']; cbn [bind] in *; congruence.
Qed.

(** C1, as stated, fails: the react flavor renders nothing for a section
    of unknown type.  For [gallery_plan] no file of the react output
    holds the props of its gallery section, in either JSON form. *)
Lemma C1_react_drops_unknown_section :
  ~ fallback_in_every_flavor gallery_plan react.
Proof.
  intros H.
  destruct (H gallery_section (or_introl eq_refl) eq_refl)
    as (out & Hout & f & Hin & Hocc).
  vm_compute in Hout. injection Hout as <-.
  cbn [files] in Hin.
  repeat (destruct Hin as [<- | Hin]);
    try (destruct Hocc as [Ho | Ho]; revert Ho; apply not_occurs_in;
         vm_compute; reflexivity).
  contradiction.
Qed.

(** C1 (amended).  For every plan and every section [s] of it whose type
    is none of hero, features and contact:
    - the vanilla flavor renders [s] as the generic fragment showing
      [JSON.stringify(props, null, 2)], rendering [s] never throws, and
      the fragment is part of [index.html] whenever the plan is one the
      flavor can print;
    - the next flavor shows the same JSON text of the props in
      [app/page.tsx] whenever the plan is one the flavor can print;
    - the react flavor renders nothing for [s]: it defines components
      for hero and features sections only, and its whole output is that
      of the plan without the other sections. *)
Theorem C1_fallback_by_flavor (plan : SitePlan) (s : Section) :
  In s (sections plan) -> known_type (section_type s) = false ->
  renderHtml_section s = Return (fallback_fragment s)
  /\ (plan_ok vanilla plan = true ->
      exists out html,
        buildFilesFromPlan plan vanilla = Return out
        /\ file_at "index.html" out = Some html
        /\ occurs_in (fallback_fragment s) html)
  /\ (plan_ok next plan = true ->
      exists out page,
        buildFilesFromPlan plan next = Return out
        /\ file_at "app/page.tsx" out = Some page
        /\ occurs_in (JSON_stringify2 (JObj (props s))) page)
  /\ renderReactApp_section s = Return EmptyString
  /\ buildFilesFromPlan plan react
     = buildFilesFromPlan
         (with_sections (filter react_component (sections plan)) plan) react.
Proof.
  intros Hin Hunknown.
  pose proof (renderHtml_section_unknown s Hunknown) as Hfrag.
  split; [assumption|]. split; [|split; [|split]].
  - intros Hok. destruct (buildFilesFromPlan_returns plan vanilla Hok) as (out & Hout).
    pose proof Hout as H. unfold buildFilesFromPlan in H.
    apply bind_Return in H as (html & Hhtml & H). injection H as <-.
    exists (mkFiles
              [mkFile "index.html" html; mkFile "styles.css" (renderCss plan);
               mkFile "main.js" (renderJs plan)]), html.
    split; [assumption|]. split; [reflexivity|].
    apply renderHtml_fragments in Hhtml as (frags & Hfrags & Hocc).
    destruct (mapM_In _ _ s Hfrags Hin) as (y & Hy & Hiny).
    rewrite Hfrag in Hy. injection Hy as <-.
    eapply occurs_in_trans; [|exact Hocc]. now apply occurs_in_join.
  - intros Hok. destruct (buildFilesFromPlan_returns plan next Hok) as (out & Hout).
    pose proof Hout as H. unfold buildFilesFromPlan in H.
    apply bind_Return in H as (page & Hpage & H). injection H as <-.
    eexists; exists page.
    split; [eassumption|]. split; [reflexivity|].
    apply renderNextPage_blocks in Hpage as (blocks & Hblocks & Hocc).
    destruct (mapM_In _ _ s Hblocks Hin) as (y & Hy & Hiny).
    apply renderNextPage_section_props in Hy.
    eapply occurs_in_trans; [exact Hy|].
    eapply occurs_in_trans; [|exact Hocc]. now apply occurs_in_join.
  - apply unknown_type in Hunknown as (H1 & H2 & _).
    unfold renderReactApp_section. now rewrite H1, H2.
  - unfold buildFilesFromPlan. now rewrite <- renderReactApp_filter.
Qed.

Lemma C1_fallback_by_flavor_witness :
  renderHtml_section gallery_section = Return (fallback_fragment gallery_section)
  /\ exists out html,
       buildFilesFromPlan gallery_plan vanilla = Return out
       /\ file_at "index.html" out = Some html
       /\ occurs_in (fallback_fragment gallery_section) html.
Proof.
  destruct (C1_fallback_by_flavor gallery_plan gallery_section
              (or_introl eq_refl) eq_refl) as (Hfrag & Hvanilla & _).
  split; [exact Hfrag | exact (Hvanilla eq_refl)].
Defined.

End Fallback.

(* ------------------------------------------------------------------ *)
(** ** The generator as a whole *)
(* ------------------------------------------------------------------ *)

Module Generator.
Import Js Validation Codegen Spec Samples Facts CodegenFacts.

(** C2: the generator is meant to return on every plan the schema
    accepts, whatever the props hold.  The vanilla flavor does not: on
    [bad_items_plan], whose features section has the string ["none"] as
    [items], [(section.props.items || []).map] is not a function and the
    [TypeError] escapes [buildFilesFromPlan]; the react and next flavors
    return on the same plan. *)
Theorem C2_vanilla_throws_on_items_that_is_no_array :
  buildFilesFromPlan bad_items_plan vanilla
  = Throw (TypeError "(section.props.items || []).map is not a function")
  /\ (exists out, buildFilesFromPlan bad_items_plan react = Return out)
  /\ (exists out, buildFilesFromPlan bad_items_plan next = Return out).
Proof.
  split; [reflexivity|].
  split; apply buildFilesFromPlan_returns; reflexivity.
Qed.


Lemma tailwindConfig_colors (plan : SitePlan) :
  occurs_in ("colors: " ++ JSON_stringify2 (colors_value (colors (style plan))))
            (tailwindConfig plan).
Proof.
  unfold tailwindConfig.
  eapply occurs_in_lines; [do 10 right; left; reflexivity|].
  apply (occurs_in_append_left "      "), occurs_in_refl.
Qed.




(** C6: every HTML document or layout is meant to carry [dir="rtl"] when
    the language is ['fa'].  [renderHtml] and [baseLayout] do, but the
    [public/index.html] of the react flavor is written inline without
    the attribute: for the Persian [persian_plan] it opens with
    [<html lang="fa">] and holds no [dir] attribute at all, while the
    vanilla [index.html] and the next [app/layout.tsx] of the same plan
    open with [<html lang="fa" dir="rtl">]. *)
Theorem C6_react_index_html_has_no_dir :
  (exists out html,
      buildFilesFromPlan persian_plan react = Return out
      /\ file_at "public/index.html" out = Some html
      /\ occurs_in ("<html lang=" ++ q "fa" ++ ">") html
      /\ ~ occurs_in "dir=" html)
  /\ (exists out html,
      buildFilesFromPlan persian_plan vanilla = Return out
      /\ file_at "index.html" out = Some html
      /\ occurs_in ("<html lang=" ++ q "fa" ++ " dir=" ++ q "rtl" ++ ">") html)
  /\ (exists out layout,
      buildFilesFromPlan persian_plan next = Return out
      /\ file_at "app/layout.tsx" out = Some layout
      /\ occurs_in ("<html lang=" ++ q "fa" ++ " dir=" ++ q "rtl" ++ ">") layout).
Proof.
  split; [|split].
  - eexists; eexists. split; [reflexivity|]. split; [reflexivity|]. split.
    + apply includes_spec. vm_compute. reflexivity.
    + apply not_occurs_in. vm_compute. reflexivity.
  - eexists; eexists. split; [reflexivity|]. split; [reflexivity|].
    apply includes_spec. vm_compute. reflexivity.
  - eexists; eexists. split; [reflexivity|]. split; [reflexivity|].
    apply includes_spec. vm_compute. reflexivity.
Qed.

(** C10: the generator never reads [plan.assets]: two plans with the same
    meta, sections and style give the same outcome in every flavor,
    whatever their images. *)
Theorem C10_assets_do_not_interfere (p1 p2 : SitePlan) (fw : Framework) :
  meta p1 = meta p2 -> sections p1 = sections p2 -> style p1 = style p2 ->
  buildFilesFromPlan p1 fw = buildFilesFromPlan p2 fw.
Proof.
  destruct p1 as [m1 a1 s1 st1], p2 as [m2 a2 s2 st2]. cbn [meta sections style].
  intros -> -> ->. destruct fw; reflexivity.
Qed.

Lemma C10_assets_do_not_interfere_witness :
  assets persian_plan <> assets persian_plan_with_image
  /\ buildFilesFromPlan persian_plan react
     = buildFilesFromPlan persian_plan_with_image react.
Proof.
  split; [discriminate|].
  exact (C10_assets_do_not_interfere persian_plan persian_plan_with_image react
           eq_refl eq_refl eq_refl).
Defined.

End Generator.

(* ------------------------------------------------------------------ *)
(** ** Validation of build requests *)
(* ------------------------------------------------------------------ *)

Module Requests.
Import Js Validation Spec Samples.

(** *** Issues are gathered, never dropped *)

Lemma issues_of_ap {A B} (f : Parsed (A -> B)) (x : Parsed A) :
  issues_of (ap f x) = (issues_of f ++ issues_of x)%list.
Proof. destruct f, x; reflexivity. Qed.

Lemma reported_Valid {A} (p : list PathSeg) (a : A) : reported p (Valid a).
Proof. split; [discriminate | contradiction]. Qed.

Lemma reported_single {A} (p : list PathSeg) (c : IssueCode) (m : option string) :
  reported p (@Invalid A [mkIssue c p m]).
Proof.
  split.
  - intros issues H. injection H as <-. discriminate.
  - intros i [<- | []]. exists []. cbn. now rewrite app_nil_r.
Qed.

Lemma reported_above {A} (p q : list PathSeg) (r : Parsed A) :
  reported (p ++ q) r -> reported p r.
Proof.
  intros (Hne & Hpath). split; [assumption|].
  intros i Hi. destruct (Hpath i Hi) as (rest & ->).
  exists (q ++ rest)%list. now rewrite app_assoc.
Qed.

Lemma reported_ap {A B} (p : list PathSeg) (f : Parsed (A -> B)) (x : Parsed A) :
  reported p f -> reported p x -> reported p (ap f x).
Proof.
  intros (Hf1 & Hf2) (Hx1 & Hx2). split.
  - intros issues H. destruct f as [g|fi], x as [a|xi]; cbn in H;
      try discriminate; injection H as <-; [now apply Hx1 | |];
      intros H; apply app_eq_nil in H as (H & _); now apply (Hf1 fi).
  - intros i. rewrite issues_of_ap, in_app_iff. intros [H | H]; auto.
Qed.

Lemma reported_z_string (checks : list StringCheck) p v :
  reported p (z_string checks p v).
Proof.
  unfold z_string. destruct v as [[| | |s| |]|]; try apply reported_single.
  destruct (flat_map (check_string p s) checks) as [|i l] eqn:E;
    [apply reported_Valid|].
  split; [intros issues H; injection H as <-; discriminate|].
  cbn [issues_of]. rewrite <- E. intros j Hj.
  apply in_flat_map in Hj as (c & _ & Hj). exists []. rewrite app_nil_r.
  destruct c as [n m|n m]; unfold check_string in Hj.
  - destruct (String_length s <? n)%nat;
      [destruct Hj as [<- | []]; reflexivity | contradiction].
  - destruct (n <? String_length s)%nat;
      [destruct Hj as [<- | []]; reflexivity | contradiction].
Qed.

Lemma reported_z_boolean p v : reported p (z_boolean p v).
Proof.
  unfold z_boolean. destruct v as [[| | | | |]|];
    try apply reported_single. apply reported_Valid.
Qed.

Lemma reported_z_enum {A} (options : list (string * A)) p v :
  reported p (z_enum options p v).
Proof.
  unfold z_enum. destruct v as [[| | |s| |]|]; try apply reported_single.
  destruct (lookup s options); [apply reported_Valid | apply reported_single].
Qed.

Lemma reported_z_optional {A} (inner : Schema A) p v :
  reported p (inner p v) -> reported p (z_optional inner p v).
Proof.
  unfold z_optional. destruct v as [x|]; [|intros _; apply reported_Valid].
  destruct (inner p (Some x)) as [a|issues]; [intros _; apply reported_Valid|].
  intros (H1 & H2). split.
  - intros l H. injection H as <-. now apply H1.
  - exact H2.
Qed.

Lemma reported_parse_elems {A} (elem : Schema A) p i l :
  (forall q v, reported q (elem q v)) -> reported p (parse_elems elem p i l).
Proof.
  intros Helem. revert i. induction l as [|x l IH]; intros i; cbn [parse_elems].
  - apply reported_Valid.
  - apply reported_ap; [apply reported_ap; [apply reported_Valid|]|apply IH].
    apply reported_above with [Index i]. apply Helem.
Qed.

Lemma reported_z_array_min {A} (elem : Schema A) n p v :
  (forall q w, reported q (elem q w)) -> reported p (z_array_min elem n p v).
Proof.
  intros Helem. unfold z_array_min.
  destruct v as [[| | | |elems|]|]; try apply reported_single.
  pose proof (@reported_parse_elems _ elem p 0 elems Helem) as (H1 & H2).
  destruct (length elems <? n)%nat.
  - split; [intros issues H; injection H as <-; discriminate|].
    cbn [issues_of]. intros i [<- | Hi]; [exists []; cbn; now rewrite app_nil_r|].
    now apply H2.
  - destruct (parse_elems elem p 0 elems) as [l|issues]; [apply reported_Valid|].
    split; [intros l' H; injection H as <-; now apply H1|].
    exact H2.
Qed.

(** Proves an object schema well reported from its fields. *)
Ltac reported_object :=
  repeat first
    [ apply reported_Valid
    | apply reported_ap
    | match goal with
      | |- reported ?p (_ (?p ++ [Key ?k])%list _) => apply reported_above with [Key k]
      end
    | apply reported_z_optional
    | apply reported_z_string
    | apply reported_z_boolean
    | apply reported_z_enum ].

Lemma reported_ThemeSchema p v : reported p (ThemeSchema p v).
Proof.
  unfold ThemeSchema, z_object.
  destruct v as [[| | | | |members]|]; try apply reported_single.
  reported_object.
Qed.

Lemma reported_BrandSchema p v : reported p (BrandSchema p v).
Proof.
  unfold BrandSchema, z_object.
  destruct v as [[| | | | |members]|]; try apply reported_single.
  reported_object.
Qed.

Lemma reported_IntentSchema p v : reported p (IntentSchema p v).
Proof. apply reported_z_string. Qed.

Lemma reported_FrameworkSchema p v : reported p (FrameworkSchema p v).
Proof. apply reported_z_enum. Qed.

Lemma reported_LanguageSchema p v : reported p (LanguageSchema p v).
Proof. apply reported_z_enum. Qed.

Lemma reported_SectionsSchema p v : reported p (SectionsSchema p v).
Proof. apply reported_z_array_min. intros q w. apply reported_z_enum. Qed.

Lemma snd_verdict {A} (r : Parsed A) : snd (verdict r) = issues_of r.
Proof. now destruct r. Qed.

Lemma verdict_reported {A} (p : list PathSeg) (r : Parsed A) :
  reported p r ->
  (fst (verdict r) = false -> snd (verdict r) <> [])
  /\ (forall i, In i (snd (verdict r)) -> exists rest, issue_path i = (p ++ rest)%list).
Proof.
  intros (H1 & H2). split.
  - destruct r as [a|issues]; [discriminate|]. intros _. now apply H1.
  - now rewrite snd_verdict.
Qed.

(** Each field schema reports at the key of its field. *)
Lemma field_verdict_reported (k : string) (members : list (string * JsValue)) :
  (fst (field_verdict k members) = false -> field_issues k members <> [])
  /\ (forall i, In i (field_issues k members) -> names_field k i).
Proof.
  unfold field_issues, field_verdict, names_field.
  repeat match goal with
         | |- context [if ?c then _ else _] => destruct c
         end;
    try (apply (@verdict_reported _ [Key k]));
    try apply reported_IntentSchema; try apply reported_FrameworkSchema;
    try apply reported_ThemeSchema; try apply reported_SectionsSchema;
    try apply reported_LanguageSchema;
    try apply reported_z_optional, reported_BrandSchema.
  split; [discriminate | contradiction].
Qed.

(** The issues of a raw object are those of its six fields, in shape
    order. *)
Lemma BuildRequestSchema_issues (members : list (string * JsValue)) :
  issues_of (BuildRequestSchema [] (Some (JObj members)))
  = flat_map (fun k => field_issues k members) schema_fields.
Proof.
  unfold BuildRequestSchema, z_object. rewrite !issues_of_ap.
  cbn [issues_of schema_fields flat_map app]. unfold field_issues, field_verdict.
  cbn [String.eqb Ascii.eqb Bool.eqb]. rewrite !snd_verdict.
  now rewrite app_nil_r, <- !app_assoc.
Qed.

(** Every rejected field is named by an issue of the whole. *)
Lemma rejected_field_is_named (members : list (string * JsValue)) (k : string) :
  field_rejected k members ->
  exists i, In i (issues_of (BuildRequestSchema [] (Some (JObj members))))
            /\ names_field k i.
Proof.
  intros (Hk & Hrej). rewrite BuildRequestSchema_issues.
  destruct (field_verdict_reported k members) as (Hne & Hnamed).
  specialize (Hne Hrej).
  destruct (field_issues k members) as [|i l] eqn:E; [contradiction|].
  exists i. split.
  - apply in_flat_map. exists k. split; [assumption|]. rewrite E. now left.
  - apply Hnamed. now left.
Qed.

End Requests.

(* ------------------------------------------------------------------ *)
(** ** Valid requests and empty section lists *)
(* ------------------------------------------------------------------ *)

Module Roundtrip.
Import Js Validation Spec Samples Requests.

Lemma FrameworkSchema_json p (f : Framework) :
  FrameworkSchema p (Some (JStr (Framework_name f))) = Valid f.
Proof. now destruct f. Qed.

Lemma LanguageSchema_json p (l : Language) :
  LanguageSchema p (Some (JStr (Language_name l))) = Valid l.
Proof. now destruct l. Qed.

Lemma IntentSchema_json p (s : string) :
  3 <= String_length s <= 2000 -> IntentSchema p (Some (JStr s)) = Valid s.
Proof.
  intros (Hmin & Hmax). unfold IntentSchema, z_string.
  cbn [flat_map check_string app].
  apply Nat.ltb_ge in Hmin. apply Nat.ltb_ge in Hmax.
  now rewrite Hmin, Hmax.
Qed.

Lemma parse_elems_kinds {A} (options : list (string * A)) (name : A -> string)
      p i (l : list A) :
  (forall a, lookup (name a) options = Some a) ->
  parse_elems (z_enum options) p i (map (fun a => JStr (name a)) l) = Valid l.
Proof.
  intros Hname. revert i. induction l as [|a l IH]; intros i; [reflexivity|].
  cbn [map parse_elems]. rewrite IH. unfold z_enum. now rewrite Hname.
Qed.

Lemma SectionsSchema_json p (l : list SectionKind) :
  l <> [] ->
  SectionsSchema p (Some (JArr (map (fun k => JStr (SectionKind_name k)) l))) = Valid l.
Proof.
  intros Hne. unfold SectionsSchema, z_array_min.
  rewrite (@parse_elems_kinds _ _ SectionKind_name p 0 l) by (now intros []).
  destruct l; [contradiction | reflexivity].
Qed.

Lemma ThemeSchema_json p (t : Theme) : ThemeSchema p (Some (Theme_json t)) = Valid t.
Proof. destruct t as [pr [s|] [f|] [d|]]; reflexivity. Qed.

Lemma BrandSchema_json p (b : Brand) : BrandSchema p (Some (Brand_json b)) = Valid b.
Proof. destruct b as [[n|] [[]|]]; reflexivity. Qed.

(** C8: a request that meets the constraints of the data model (intent of
    3 to 2000 characters, at least one section; the enumerations hold by
    type) is returned by [BuildRequestSchema.parse] as it is: parsing its
    JSON form yields the request itself, no field changed. *)
Theorem C8_valid_request_roundtrip (r : BuildRequest) :
  BuildRequest_valid r ->
  parse BuildRequestSchema (BuildRequest_json r) = Return r.
Proof.
  destruct r as [i f t ss l b]. unfold BuildRequest_valid.
  cbn [intent req_sections]. intros (Hlen & Hss).
  unfold parse, BuildRequestSchema, z_object, BuildRequest_json.
  cbn [intent framework theme req_sections req_language brand].
  destruct b as [b|]; cbn [opt_member app lookup String.eqb Ascii.eqb Bool.eqb];
    rewrite IntentSchema_json, FrameworkSchema_json, ThemeSchema_json,
      SectionsSchema_json, LanguageSchema_json by assumption;
    unfold z_optional; try rewrite BrandSchema_json; reflexivity.
Qed.

Lemma C8_valid_request_roundtrip_witness :
  parse BuildRequestSchema (BuildRequest_json bakery_request) = Return bakery_request.
Proof.
  apply C8_valid_request_roundtrip. split; [|discriminate].
  split; apply Nat.leb_le; reflexivity.
Defined.

(** An empty [sections] list is rejected with an issue at [sections]. *)
Lemma empty_sections_rejected (members : list (string * JsValue)) :
  lookup "sections" members = Some (JArr []) ->
  exists issues,
    BuildRequestSchema [] (Some (JObj members)) = Invalid issues
    /\ In (mkIssue too_small [Key "sections"] None) issues.
Proof.
  intros Hs.
  destruct (BuildRequestSchema [] (Some (JObj members))) as [r|issues] eqn:E.
  - pose proof (BuildRequestSchema_issues members) as H. rewrite E in H.
    cbn [issues_of schema_fields flat_map] in H.
    assert (Hin : In (mkIssue too_small [Key "sections"] None)
                     (field_issues "sections" members)).
    { unfold field_issues, field_verdict. cbn [String.eqb Ascii.eqb Bool.eqb].
      rewrite Hs. now left. }
    symmetry in H. repeat (apply app_eq_nil in H as (? & H)).
    match goal with Hnil : field_issues "sections" members = [] |- _ =>
      rewrite Hnil in Hin end.
    contradiction.
  - exists issues. split; [reflexivity|].
    pose proof (BuildRequestSchema_issues members) as H. rewrite E in H.
    cbn [issues_of] in H. rewrite H.
    apply in_flat_map. exists "sections". split; [cbn; tauto|].
    unfold field_issues, field_verdict. cbn [String.eqb Ascii.eqb Bool.eqb].
    rewrite Hs. now left.
Qed.

End Roundtrip.

(* ------------------------------------------------------------------ *)
(** ** What the generator throws *)
(* ------------------------------------------------------------------ *)

Module Throws.
Import Js Validation Codegen Spec Facts.

(** Splits a thrown outcome along the binds and tests it went through. *)
Ltac thrown H :=
  repeat match type of H with
         | bind _ _ = Throw _ => apply bind_Throw in H as [H | (? & _ & H)]
         | Return _ = Throw _ => discriminate H
         | (if ?c then _ else _) = Throw _ => destruct c
         end.

Lemma ToString_throws (v : JsValue) (e : Exn) :
  ToString v = Throw e -> generator_error e.
Proof.
  induction v as [| b | t | s | l IH | m _] using JsValue_induction;
    cbn [ToString]; intros H; try discriminate.
  - destruct b; discriminate.
  - thrown H. induction IH as [|x r Hx _ IHr]; [discriminate|].
    thrown H; [|now apply IHr].
    destruct x; try discriminate; now apply Hx.
  - thrown H. injection H as <-. eexists. split; [reflexivity | discriminate].
Qed.

Lemma ToString_opt_throws (v : option JsValue) (e : Exn) :
  ToString_opt v = Throw e -> generator_error e.
Proof. destruct v; [apply ToString_throws | discriminate]. Qed.

Lemma or_default_throws (v : option JsValue) (d : string) (e : Exn) :
  or_default v d = Throw e -> generator_error e.
Proof.
  unfold or_default. destruct v as [x|]; [|discriminate].
  intros H. thrown H. now apply ToString_throws with x.
Qed.

Lemma cta_button_throws (tag : string) (v : option JsValue) (e : Exn) :
  cta_button tag v = Throw e -> generator_error e.
Proof.
  unfold cta_button. intros H. thrown H. now apply ToString_opt_throws with v.
Qed.

Lemma getProp_throws (item : JsValue) (k : string) (e : Exn) :
  getProp item k = Throw e -> generator_error e.
Proof.
  destruct item; try discriminate. intros H. injection H as <-.
  eexists. split; [reflexivity | discriminate].
Qed.

Lemma renderHtml_item_throws (item : JsValue) (e : Exn) :
  renderHtml_item item = Throw e -> generator_error e.
Proof.
  unfold renderHtml_item. intros H. thrown H;
    eauto using getProp_throws, ToString_opt_throws.
Qed.

Lemma items_map_throws (items : option JsValue) (e : Exn) :
  items_map items renderHtml_item = Throw e -> generator_error e.
Proof.
  unfold items_map. destruct items as [v|]; [|discriminate].
  intros H. thrown H.
  destruct v; try (injection H as <-; eexists; split; [reflexivity | discriminate]).
  apply mapM_Throw in H as (x & _ & H). now apply renderHtml_item_throws with x.
Qed.

Lemma renderHtml_section_throws (s : Section) (e : Exn) :
  renderHtml_section s = Throw e -> generator_error e.
Proof.
  unfold renderHtml_section. intros H. thrown H;
    eauto using or_default_throws, cta_button_throws, items_map_throws.
Qed.

Lemma renderReactApp_section_throws (s : Section) (e : Exn) :
  renderReactApp_section s = Throw e -> generator_error e.
Proof.
  unfold renderReactApp_section. intros H. thrown H;
    eauto using or_default_throws, cta_button_throws.
Qed.

Lemma renderNextPage_section_throws (s : Section) (e : Exn) :
  renderNextPage_section s = Throw e -> generator_error e.
Proof.
  unfold renderNextPage_section. intros H. thrown H;
    eauto using or_default_throws.
Qed.

(** Every exception of [buildFilesFromPlan] is a [TypeError] with a
    message, raised while a section is rendered. *)
Lemma buildFilesFromPlan_throws (plan : SitePlan) (fw : Framework) (e : Exn) :
  buildFilesFromPlan plan fw = Throw e -> generator_error e.
Proof.
  destruct fw; unfold buildFilesFromPlan, renderHtml, renderReactApp, renderNextPage;
    intros H; thrown H; apply mapM_Throw in H as (s & _ & H);
    eauto using renderHtml_section_throws, renderReactApp_section_throws,
      renderNextPage_section_throws.
Qed.

End Throws.

(* ------------------------------------------------------------------ *)
(** ** The generate handler *)
(* ------------------------------------------------------------------ *)

Module Handler.
Import Js Validation Codegen Effects Route Spec Samples Facts Requests Roundtrip Throws.

(** The AI client throws one error only, and by then it has sent the
    request. *)
Lemma generateSitePlan_throws service JSON_parse req w e :
  fst (Ai.generateSitePlan service JSON_parse req w) = Throw e ->
  e = Error "Failed to generate site plan".
Proof.
  unfold Ai.generateSitePlan, try_catch, bindA, Ai.create, lift, throw, console_error.
  destruct (service req) as [choices|e1]; cbn [fst]; [|now intros [= <-]].
  destruct (Ai.first_content choices) as [[text|]|e2]; cbn [fst];
    try (now intros [= <-]).
  destruct (text =? EmptyString); [now intros [= <-]|].
  destruct (JSON_parse text); cbn [fst]; [discriminate | now intros [= <-]].
Qed.

(** The handler up to the call of the generator. *)
Lemma POST_invalid service JSON_parse raw w issues :
  BuildRequestSchema [] (Some raw) = Invalid issues ->
  POST service JSON_parse (Return raw) w
  = (Return (mkResponse 400 (Failure "Invalid request data" (Some issues))),
     mkWorld (ai_requests w) (("Generation error:", ZodError issues) :: console w)).
Proof.
  intros H. unfold POST, try_catch, bindA, lift, parse. now rewrite H.
Qed.

Lemma POST_valid service JSON_parse raw w req :
  BuildRequestSchema [] (Some raw) = Valid req ->
  fst (POST service JSON_parse (Return raw) w)
  = match fst (Ai.generateSitePlan service JSON_parse req w) with
    | Throw e => fst (on_error e (snd (Ai.generateSitePlan service JSON_parse req w)))
    | Return plan =>
        match buildFilesFromPlan plan (framework req) with
        | Throw e => fst (on_error e (snd (Ai.generateSitePlan service JSON_parse req w)))
        | Return files => Return (mkResponse 200 (Success plan files))
        end
    end.
Proof.
  intros H. unfold POST, try_catch, bindA, lift, parse, ret. rewrite H.
  destruct (Ai.generateSitePlan service JSON_parse req w) as [[plan|e] w'];
    cbn [fst snd]; [|reflexivity].
  destruct (buildFilesFromPlan plan (framework req)); reflexivity.
Qed.

Lemma on_error_native name message w :
  name <> "ZodError" -> message <> EmptyString ->
  fst (on_error (NativeError name message) w)
  = Return (mkResponse 500 (Failure message None)).
Proof.
  intros Hn Hm. apply String.eqb_neq in Hn. apply String.eqb_neq in Hm.
  unfold on_error, bindA, console_error, ret. now rewrite Hn, Hm.
Qed.

(** C5: the responses of the generate handler to a request body [raw], in
    any world and whatever the completion service answers.
    - When validation fails, the response is a 400 whose [details] are
      the issues of the validator, and every rejected field of the
      request is named by one of them.
    - When the AI client fails, the response is a 500 with the message
      the client raised.
    - When the generator fails, the response is a 500 with the message
      of the exception it raised.
    - Otherwise the response is a 200 with the plan and its files.
    - There is always a response, and it either has status 200 and the
      members [plan] and [files], or another status and neither. *)
Theorem C5_generate_handler_responses
        (service : BuildRequest -> Outcome (list Ai.Choice))
        (JSON_parse : string -> Outcome SitePlan) (raw : JsValue) (w : World) :
  let result := fst (POST service JSON_parse (Return raw) w) in
  let client req := fst (Ai.generateSitePlan service JSON_parse req w) in
  (forall issues, BuildRequestSchema [] (Some raw) = Invalid issues ->
     result = Return (mkResponse 400 (Failure "Invalid request data" (Some issues)))
     /\ forall members k, raw = JObj members -> field_rejected k members ->
          exists i, In i issues /\ names_field k i)
  /\ (forall req e, BuildRequestSchema [] (Some raw) = Valid req ->
        client req = Throw e ->
        e = Error "Failed to generate site plan"
        /\ result = Return (mkResponse 500 (Failure "Failed to generate site plan" None)))
  /\ (forall req plan e, BuildRequestSchema [] (Some raw) = Valid req ->
        client req = Return plan ->
        buildFilesFromPlan plan (framework req) = Throw e ->
        exists m, e = TypeError m
                  /\ result = Return (mkResponse 500 (Failure m None)))
  /\ (forall req plan out, BuildRequestSchema [] (Some raw) = Valid req ->
        client req = Return plan ->
        buildFilesFromPlan plan (framework req) = Return out ->
        result = Return (mkResponse 200 (Success plan out)))
  /\ (exists resp, result = Return resp
        /\ ((status resp = 200 /\ body_keys (body resp) = ["plan"; "files"])
            \/ (status resp <> 200
                /\ ~ In "plan" (body_keys (body resp))
                /\ ~ In "files" (body_keys (body resp))))).
Proof.
  intros result client.
  assert (Hinvalid : forall issues, BuildRequestSchema [] (Some raw) = Invalid issues ->
            result = Return (mkResponse 400 (Failure "Invalid request data" (Some issues)))).
  { intros issues H. unfold result. now rewrite (@POST_invalid service JSON_parse raw w issues H). }
  assert (Hclient : forall req e, BuildRequestSchema [] (Some raw) = Valid req ->
            client req = Throw e ->
            e = Error "Failed to generate site plan"
            /\ result = Return (mkResponse 500 (Failure "Failed to generate site plan" None))).
  { intros req e Hv He. pose proof (@generateSitePlan_throws service JSON_parse req w e He) as ->.
    split; [reflexivity|]. unfold result. rewrite (@POST_valid service JSON_parse raw w req Hv).
    fold (client req). rewrite He. now apply on_error_native. }
  assert (Hgen : forall req plan e, BuildRequestSchema [] (Some raw) = Valid req ->
            client req = Return plan ->
            buildFilesFromPlan plan (framework req) = Throw e ->
            exists m, e = TypeError m
                      /\ result = Return (mkResponse 500 (Failure m None))).
  { intros req plan e Hv Hp He.
    destruct (@buildFilesFromPlan_throws plan (framework req) e He) as (m & -> & Hm).
    exists m. split; [reflexivity|].
    unfold result. rewrite (@POST_valid service JSON_parse raw w req Hv).
    fold (client req). rewrite Hp, He. now apply on_error_native. }
  assert (Hok : forall req plan out, BuildRequestSchema [] (Some raw) = Valid req ->
            client req = Return plan ->
            buildFilesFromPlan plan (framework req) = Return out ->
            result = Return (mkResponse 200 (Success plan out))).
  { intros req plan out Hv Hp Ho. unfold result.
    rewrite (@POST_valid service JSON_parse raw w req Hv). fold (client req).
    now rewrite Hp, Ho. }
  split; [|split; [exact Hclient | split; [exact Hgen | split; [exact Hok|]]]].
  - intros issues H. split; [now apply Hinvalid|].
    intros members k -> Hrej.
    destruct (@rejected_field_is_named members k Hrej) as (i & Hi & Hnamed).
    rewrite H in Hi. now exists i.
  - destruct (BuildRequestSchema [] (Some raw)) as [req|issues] eqn:Hv.
    + destruct (client req) as [plan|e] eqn:Hp.
      * destruct (buildFilesFromPlan plan (framework req)) as [out|e] eqn:Ho.
        -- eexists. split; [now apply (Hok req plan out)|]. left. now split.
        -- destruct (Hgen req plan e eq_refl Hp Ho) as (m & _ & ->).
           eexists. split; [reflexivity|]. right. cbn.
           split; [discriminate|]. split; intuition discriminate.
      * destruct (Hclient req e eq_refl Hp) as (_ & ->).
        eexists. split; [reflexivity|]. right. cbn.
        split; [discriminate|]. split; intuition discriminate.
    + rewrite (Hinvalid issues eq_refl).
      eexists. split; [reflexivity|]. right. cbn.
      split; [discriminate|]. split; intuition discriminate.
Qed.

Lemma C5_generate_handler_responses_witness :
  exists issues,
    fst (POST steady_service steady_parse (Return (JObj empty_sections_body)) fresh_world)
    = Return (mkResponse 400 (Failure "Invalid request data" (Some issues))).
Proof.
  eexists.
  apply (proj1 (@C5_generate_handler_responses steady_service steady_parse
                  (JObj empty_sections_body) fresh_world)).
  reflexivity.
Defined.

(** C7: a raw request whose [sections] list is empty is rejected by
    [BuildRequestSchema.parse] with an issue at [sections], and the
    handler answers 400 with that issue among the details, having sent
    nothing to the completion service: the requests recorded in the
    world are those recorded before. *)
Theorem C7_empty_sections_rejected_before_ai
        (service : BuildRequest -> Outcome (list Ai.Choice))
        (JSON_parse : string -> Outcome SitePlan)
        (members : list (string * JsValue)) (w : World) :
  lookup "sections" members = Some (JArr []) ->
  exists issues,
    parse BuildRequestSchema (JObj members) = Throw (ZodError issues)
    /\ In (mkIssue too_small [Key "sections"] None) issues
    /\ fst (POST service JSON_parse (Return (JObj members)) w)
       = Return (mkResponse 400 (Failure "Invalid request data" (Some issues)))
    /\ ai_requests (snd (POST service JSON_parse (Return (JObj members)) w))
       = ai_requests w.
Proof.
  intros Hs. destruct (empty_sections_rejected members Hs) as (issues & Hinv & Hin).
  exists issues. unfold parse at 1. rewrite Hinv.
  rewrite (@POST_invalid service JSON_parse (JObj members) w issues Hinv). cbn [fst snd ai_requests].
  repeat split; assumption.
Qed.

Lemma C7_empty_sections_rejected_before_ai_witness :
  exists issues,
    parse BuildRequestSchema (JObj empty_sections_body) = Throw (ZodError issues)
    /\ In (mkIssue too_small [Key "sections"] None) issues
    /\ fst (POST steady_service steady_parse (Return (JObj empty_sections_body))
              fresh_world)
       = Return (mkResponse 400 (Failure "Invalid request data" (Some issues)))
    /\ ai_requests (snd (POST steady_service steady_parse
                           (Return (JObj empty_sections_body)) fresh_world))
       = ai_requests fresh_world.
Proof.
  apply C7_empty_sections_rejected_before_ai. reflexivity.
Defined.

End Handler.

(* ------------------------------------------------------------------ *)
(** ** Plans and file lists through their schemas *)
(* ------------------------------------------------------------------ *)

Module SchemaFacts.
Import Js Validation Codegen Schemas Spec More Samples Facts CodegenFacts.

Lemma parse_elems_json {A} (elem : Schema A) (json : A -> JsValue) p i (l : list A) :
  (forall q a, elem q (Some (json a)) = Valid a) ->
  parse_elems elem p i (map json l) = Valid l.
Proof.
  intros Helem. revert i. induction l as [|a l IH]; intros i; [reflexivity|].
  cbn [map parse_elems]. now rewrite IH, Helem.
Qed.

Lemma parse_members_any p (l : list (string * JsValue)) :
  plain_keys l ->
  exists r, parse_members z_any p l = Valid r /\ defined_members r = l.
Proof.
  induction l as [|[k v] l IH]; intros Hplain; [now exists []|].
  destruct IH as (r & Hr & Hd).
  { intros k' v' Hin. apply (Hplain k' v'). now right. }
  cbn [parse_members fst snd]. rewrite Hr. cbn [z_any ap].
  assert (Hk : (k =? "__proto__") = false)
    by (apply String.eqb_neq, (Hplain k v); now left).
  rewrite Hk. eexists. split; [reflexivity|].
  unfold defined_members in *. cbn [flat_map fst snd app]. now rewrite Hd.
Qed.

Lemma parse_members_colors p (l : list (string * string)) :
  plain_keys l ->
  parse_members (z_string []) p (map (fun kv => (fst kv, JStr (snd kv))) l) = Valid l.
Proof.
  induction l as [|[k v] l IH]; intros Hplain; [reflexivity|].
  cbn [map parse_members fst snd]. rewrite IH.
  - cbn [z_string flat_map ap].
    assert (Hk : (k =? "__proto__") = false)
      by (apply String.eqb_neq, (Hplain k v); now left).
    now rewrite Hk.
  - intros k' v' Hin. apply (Hplain k' v'). now right.
Qed.

Lemma ImageSchema_json p (i : Image) : ImageSchema p (Some (Image_json i)) = Valid i.
Proof. destruct i as [n [pr|] [u|]]; reflexivity. Qed.

Lemma FileSchema_json p (f : GeneratedFile) : FileSchema p (Some (File_json f)) = Valid f.
Proof. now destruct f. Qed.

Lemma SectionSchema_json p (s : Section) :
  plain_keys (props s) -> SectionSchema p (Some (Section_json s)) = Valid s.
Proof.
  destruct s as [i t pr]. cbn [props]. intros Hplain.
  unfold SectionSchema, z_object, Section_json.
  cbn [section_id section_type props lookup String.eqb Ascii.eqb Bool.eqb].
  unfold z_record.
  destruct (parse_members_any ((p ++ [Key "props"])%list) Hplain) as (r & -> & Hd).
  cbn. now rewrite Hd.
Qed.

Lemma sections_json p i (l : list Section) :
  (forall s, In s l -> plain_keys (props s)) ->
  parse_elems SectionSchema p i (map Section_json l) = Valid l.
Proof.
  revert i. induction l as [|s l IH]; intros i Hplain; [reflexivity|].
  cbn [map parse_elems]. rewrite IH by (intros s' Hs'; apply Hplain; now right).
  rewrite SectionSchema_json by (apply Hplain; now left). reflexivity.
Qed.

Lemma StyleSchema_json p (st : Style) :
  plain_keys (colors st) -> StyleSchema p (Some (Style_json st)) = Valid st.
Proof.
  destruct st as [c f]. cbn [colors]. intros Hplain.
  unfold StyleSchema, z_object, Style_json, z_record, colors_value.
  cbn [colors font].
  destruct f as [f|]; cbn [opt_member app lookup String.eqb Ascii.eqb Bool.eqb];
    rewrite parse_members_colors by assumption; reflexivity.
Qed.

(** X1.  [SitePlanSchema] returns every plan as it is, whatever the types of
    its sections and the values of their props, empty lists included, when
    no props or colours member is named [__proto__]. *)
Theorem SitePlanSchema_roundtrip (plan : SitePlan) :
  plain_plan plan -> parse SitePlanSchema (SitePlan_json plan) = Return plan.
Proof.
  destruct plan as [[t d l] [imgs] secs st]. intros (Hcolors & Hprops).
  cbn [colors style sections] in Hcolors, Hprops.
  unfold parse, SitePlanSchema, z_object, SitePlan_json.
  cbn [meta assets sections style images lookup String.eqb Ascii.eqb Bool.eqb].
  unfold AssetsSchema, z_object, z_array.
  cbn [lookup String.eqb Ascii.eqb Bool.eqb].
  rewrite (@parse_elems_json _ ImageSchema Image_json) by (intros; apply ImageSchema_json).
  rewrite sections_json by assumption.
  rewrite StyleSchema_json by assumption.
  reflexivity.
Qed.

Lemma SitePlanSchema_roundtrip_witness :
  parse SitePlanSchema (SitePlan_json shop_plan) = Return shop_plan.
Proof.
  apply SitePlanSchema_roundtrip. split.
  - intros k v [H | [H | []]]; injection H as <- _; discriminate.
  - intros s [<- | [<- | [<- | []]]] k v Hin; cbn in Hin;
      repeat (destruct Hin as [H | Hin]; [injection H as <- _; discriminate|]);
      contradiction.
Defined.

(** X2.  [GeneratedFilesSchema] returns every file list as it is: it asks
    for strings only, so an empty path and a path given twice pass. *)
Theorem GeneratedFilesSchema_roundtrip (out : GeneratedFiles) :
  parse GeneratedFilesSchema (GeneratedFiles_json out) = Return out.
Proof.
  destruct out as [l].
  unfold parse, GeneratedFilesSchema, z_object, z_array, GeneratedFiles_json.
  cbn [files lookup String.eqb Ascii.eqb Bool.eqb].
  rewrite (@parse_elems_json _ FileSchema File_json) by (intros; apply FileSchema_json).
  reflexivity.
Qed.

(** X3.  What the generator returns has pairwise distinct paths, none of
    them empty or starting at the root, and passes [GeneratedFilesSchema]
    unchanged: the output of the generate route is a valid body for the
    export route. *)
Theorem generated_files_are_exportable
        (plan : SitePlan) (fw : Framework) (out : GeneratedFiles) :
  buildFilesFromPlan plan fw = Return out ->
  NoDup (map path (files out))
  /\ forallb relative_path (map path (files out)) = true
  /\ parse GeneratedFilesSchema (GeneratedFiles_json out) = Return out.
Proof.
  intros H. rewrite (buildFilesFromPlan_paths _ _ H).
  split; [|split; [now destruct fw | apply GeneratedFilesSchema_roundtrip]].
  destruct fw; cbn [flavor_paths];
    repeat (constructor; [cbn; intuition discriminate|]); constructor.
Qed.

Lemma generated_files_are_exportable_witness :
  exists out,
    buildFilesFromPlan shop_plan react = Return out
    /\ NoDup (map path (files out))
    /\ parse GeneratedFilesSchema (GeneratedFiles_json out) = Return out.
Proof.
  eexists. split; [reflexivity|].
  destruct (@generated_files_are_exportable shop_plan react _ eq_refl) as (Hn & _ & Hp).
  split; [exact Hn | exact Hp].
Defined.

End SchemaFacts.

(* ------------------------------------------------------------------ *)
(** ** What [BuildRequestSchema] accepts and reports *)
(* ------------------------------------------------------------------ *)

Module RequestFacts.
Import Js Validation Spec More Samples Requests Roundtrip.

Lemma ap_Valid {A B} (f : Parsed (A -> B)) (x : Parsed A) (b : B) :
  ap f x = Valid b -> exists g a, f = Valid g /\ x = Valid a /\ b = g a.
Proof.
  destruct f as [g|], x as [a|]; cbn; try discriminate.
  intros [= <-]. now exists g, a.
Qed.

Lemma z_string_Valid checks p v s :
  z_string checks p v = Valid s ->
  v = Some (JStr s) /\ flat_map (check_string p s) checks = [].
Proof.
  unfold z_string. destruct v as [[| | |s'| |]|]; try discriminate.
  destruct (flat_map (check_string p s') checks) eqn:E; [|discriminate].
  intros [= <-]. now split.
Qed.

Lemma lookup_In {A} (k : string) (l : list (string * A)) (a : A) :
  lookup k l = Some a -> In (k, a) l.
Proof.
  induction l as [|[k' a'] l IH]; [discriminate|]. cbn [lookup].
  destruct (String.eqb_spec k' k) as [-> | _].
  - intros [= <-]. now left.
  - intros H. right. now apply IH.
Qed.

Lemma z_enum_Valid {A} (options : list (string * A)) p v a :
  z_enum options p v = Valid a -> exists s, v = Some (JStr s) /\ In (s, a) options.
Proof.
  unfold z_enum. destruct v as [[| | |s| |]|]; try discriminate.
  destruct (lookup s options) eqn:E; [|discriminate].
  intros [= <-]. exists s. split; [reflexivity | now apply lookup_In].
Qed.

Lemma parse_elems_Valid {A} (options : list (string * A)) (name : A -> string)
      p i (l : list JsValue) (out : list A) :
  (forall s a, In (s, a) options -> s = name a) ->
  parse_elems (z_enum options) p i l = Valid out ->
  l = map (fun a => JStr (name a)) out.
Proof.
  intros Hname. revert i out. induction l as [|x l IH]; intros i out H.
  - cbn in H. now injection H as <-.
  - cbn [parse_elems] in H.
    apply ap_Valid in H as (g & rest & H & Hrest & ->).
    apply ap_Valid in H as (c & a & Hc & Ha & ->). injection Hc as <-.
    apply z_enum_Valid in Ha as (s & [= ->] & Hin).
    cbn [map]. now rewrite (IH _ _ Hrest), (Hname _ _ Hin).
Qed.

(** Names an enumeration literal from its membership in the option list. *)
Ltac enum_name H :=
  cbn [In] in H;
  repeat (destruct H as [H | H]; [injection H as <- <-; reflexivity|]);
  contradiction.

(** X4.  A request that [BuildRequestSchema.parse] returns meets the
    constraints of the data model, and its fields are those of the raw
    object, none coerced: the raw intent, framework, sections and language
    are the ones returned. *)
Theorem accepted_request_is_valid (raw : JsValue) (r : BuildRequest) :
  parse BuildRequestSchema raw = Return r ->
  BuildRequest_valid r
  /\ exists members,
       raw = JObj members
       /\ lookup "intent" members = Some (JStr (intent r))
       /\ lookup "framework" members = Some (JStr (Framework_name (framework r)))
       /\ lookup "sections" members
          = Some (JArr (map (fun k => JStr (SectionKind_name k)) (req_sections r)))
       /\ lookup "language" members = Some (JStr (Language_name (req_language r))).
Proof.
  unfold parse. destruct (BuildRequestSchema [] (Some raw)) as [r'|] eqn:E; [|discriminate].
  intros [= ->]. unfold BuildRequestSchema, z_object in E.
  destruct raw as [| | | | |members]; try discriminate.
  apply ap_Valid in E as (g6 & b & E & Hb & ->).
  apply ap_Valid in E as (g5 & l & E & Hl & ->).
  apply ap_Valid in E as (g4 & ss & E & Hss & ->).
  apply ap_Valid in E as (g3 & t & E & Ht & ->).
  apply ap_Valid in E as (g2 & f & E & Hf & ->).
  apply ap_Valid in E as (g1 & i & E & Hi & ->). injection E as <-.
  cbn [intent framework req_sections req_language].
  apply z_string_Valid in Hi as (Hi & Hchecks).
  apply z_enum_Valid in Hf as (sf & Hf & Hinf).
  apply z_enum_Valid in Hl as (sl & Hl & Hinl).
  assert (sf = Framework_name f) as -> by enum_name Hinf.
  assert (sl = Language_name l) as -> by enum_name Hinl.
  unfold SectionsSchema, z_array_min in Hss.
  destruct (lookup "sections" members) as [[| | | |elems|]|] eqn:Es; try discriminate.
  destruct (length elems <? 1)%nat eqn:Elen; [discriminate|].
  destruct (parse_elems _ _ 0 elems) as [out|] eqn:Eelems; [|discriminate].
  injection Hss as ->.
  apply (@parse_elems_Valid _ _ SectionKind_name) in Eelems;
    [|intros s a Hin; enum_name Hin]. subst elems.
  split.
  - unfold BuildRequest_valid. cbn [intent req_sections]. split.
    + cbn [flat_map check_string app] in Hchecks.
      destruct (String_length i <? 3)%nat eqn:E3; [discriminate|].
      destruct (2000 <? String_length i)%nat eqn:E2000; [discriminate|].
      apply Nat.ltb_ge in E3. apply Nat.ltb_ge in E2000. now split.
    + intros ->. cbn in Elen. discriminate.
  - exists members. repeat split; assumption.
Qed.

Lemma accepted_request_is_valid_witness :
  BuildRequest_valid bakery_request.
Proof.
  apply (@accepted_request_is_valid (BuildRequest_json bakery_request) bakery_request).
  reflexivity.
Defined.

(** X5.  Only the six members of the shape are read: two raw objects that
    agree on them are parsed alike, whatever else they hold and in whatever
    order. *)
Theorem unknown_members_are_ignored (m1 m2 : list (string * JsValue)) p :
  (forall k, In k schema_fields -> lookup k m1 = lookup k m2) ->
  BuildRequestSchema p (Some (JObj m1)) = BuildRequestSchema p (Some (JObj m2)).
Proof.
  intros H. unfold BuildRequestSchema, z_object.
  rewrite !H by (cbn; tauto). reflexivity.
Qed.

Lemma unknown_members_are_ignored_witness :
  BuildRequestSchema [] (Some (JObj (("debug", JBool true) :: empty_sections_body)))
  = BuildRequestSchema [] (Some (JObj empty_sections_body)).
Proof.
  apply unknown_members_are_ignored.
  intros k [<- | [<- | [<- | [<- | [<- | [<- | []]]]]]]; reflexivity.
Defined.

Lemma parse_elems_issue {A} (elem : Schema A) p (l : list JsValue) (n : nat)
      (x : JsValue) (issue : ZodIssue) :
  forall i, nth_error l n = Some x ->
  In issue (issues_of (elem (p ++ [Index (i + n)])%list (Some x))) ->
  In issue (issues_of (parse_elems elem p i l)).
Proof.
  revert n. induction l as [|y l IH]; intros n i Hn Hin; [now destruct n|].
  cbn [parse_elems]. rewrite !issues_of_ap, !in_app_iff.
  destruct n as [|n]; cbn in Hn.
  - injection Hn as ->. rewrite Nat.add_0_r in Hin. now left; right.
  - right. apply (IH n (S i) Hn). now rewrite Nat.add_succ_comm.
Qed.

Lemma invalid_when_issue {A} (r : Parsed A) (issue : ZodIssue) :
  In issue (issues_of r) -> exists issues, r = Invalid issues /\ In issue issues.
Proof.
  destruct r as [a|issues]; [contradiction|]. intros H. now exists issues.
Qed.

(** X6.  Every element of [sections] that is no section kind is reported at
    its own index: the request is rejected with an issue whose path is
    [sections, n]. *)
Theorem bad_section_reported_at_index
        (members : list (string * JsValue)) (elems : list JsValue)
        (n : nat) (x : JsValue) :
  lookup "sections" members = Some (JArr elems) ->
  nth_error elems n = Some x ->
  no_section_kind x ->
  exists issues issue,
    BuildRequestSchema [] (Some (JObj members)) = Invalid issues
    /\ In issue issues
    /\ issue_path issue = [Key "sections"; Index n].
Proof.
  intros Hs Hn Hx.
  assert (Hbad : exists issue,
             issue_path issue = [Key "sections"; Index n]
             /\ In issue (field_issues "sections" members)).
  { unfold field_issues, field_verdict. cbn [String.eqb Ascii.eqb Bool.eqb].
    rewrite snd_verdict, Hs. unfold SectionsSchema, z_array_min.
    set (kinds := z_enum _).
    assert (Hel : exists issue,
               issue_path issue = [Key "sections"; Index n]
               /\ In issue (issues_of (kinds [Key "sections"; Index n] (Some x)))).
    { unfold kinds, z_enum.
      destruct x as [| | |s| |]; try (eexists; split; [|now left]; reflexivity).
      destruct (lookup s _) as [k|] eqn:El;
        [|eexists; split; [|now left]; reflexivity].
      exfalso. apply (Hx k). f_equal. apply lookup_In in El. enum_name El. }
    destruct Hel as (issue & Hpath & Hin). exists issue. split; [assumption|].
    assert (Hall : In issue (issues_of (parse_elems kinds [Key "sections"] 0 elems)))
      by (apply (@parse_elems_issue _ kinds [Key "sections"] elems n x issue 0 Hn Hin)).
    destruct (length elems <? 1)%nat;
      destruct (parse_elems kinds [Key "sections"] 0 elems);
      cbn [issues_of app] in *; try contradiction; auto; now right. }
  destruct Hbad as (issue & Hpath & Hin).
  assert (Hall : In issue (issues_of (BuildRequestSchema [] (Some (JObj members))))).
  { rewrite BuildRequestSchema_issues. apply in_flat_map.
    exists "sections". split; [cbn; tauto | assumption]. }
  apply invalid_when_issue in Hall as (issues & E & Hi).
  now exists issues, issue.
Qed.

Lemma bad_section_reported_at_index_witness :
  exists issues issue,
    BuildRequestSchema []
      (Some (JObj [("sections", JArr [JStr "hero"; JStr "blog"])])) = Invalid issues
    /\ In issue issues
    /\ issue_path issue = [Key "sections"; Index 1].
Proof.
  apply (@bad_section_reported_at_index
           [("sections", JArr [JStr "hero"; JStr "blog"])]
           [JStr "hero"; JStr "blog"] 1 (JStr "blog")); try reflexivity.
  intros []; discriminate.
Defined.

(** X7.  The bounds of [intent] are reported with their own issues: fewer
    than 3 characters give a [too_small] issue carrying the message of the
    schema, more than 2000 a [too_big] issue, both at [intent]; either way
    the request is rejected. *)
Theorem intent_bounds_reported (members : list (string * JsValue)) (s : string) :
  lookup "intent" members = Some (JStr s) ->
  String_length s < 3 \/ 2000 < String_length s ->
  exists issues,
    BuildRequestSchema [] (Some (JObj members)) = Invalid issues
    /\ (String_length s < 3 ->
        In (mkIssue too_small [Key "intent"]
              (Some "Prompt must be at least 3 characters")) issues)
    /\ (2000 < String_length s -> In (mkIssue too_big [Key "intent"] None) issues).
Proof.
  intros Hi Hlen.
  assert (Hfield : field_issues "intent" members
                   = ((if (String_length s <? 3)%nat
                       then [mkIssue too_small [Key "intent"]
                               (Some "Prompt must be at least 3 characters")]
                       else [])
                      ++ (if (2000 <? String_length s)%nat
                          then [mkIssue too_big [Key "intent"] None] else []))%list).
  { unfold field_issues, field_verdict. cbn [String.eqb Ascii.eqb Bool.eqb].
    rewrite snd_verdict, Hi. unfold IntentSchema, z_string.
    cbn [flat_map check_string]. rewrite app_nil_r.
    destruct (String_length s <? 3)%nat eqn:E3;
      destruct (2000 <? String_length s)%nat eqn:E2000; reflexivity. }
  assert (Hsub : forall issue, In issue (field_issues "intent" members) ->
                   In issue (issues_of (BuildRequestSchema [] (Some (JObj members))))).
  { intros issue Hin. rewrite BuildRequestSchema_issues. apply in_flat_map.
    exists "intent". split; [cbn; tauto | assumption]. }
  assert (Hsmall : String_length s < 3 ->
            In (mkIssue too_small [Key "intent"]
                  (Some "Prompt must be at least 3 characters"))
               (issues_of (BuildRequestSchema [] (Some (JObj members))))).
  { intros H. apply Hsub. rewrite Hfield. apply Nat.ltb_lt in H. rewrite H.
    now left. }
  assert (Hbig : 2000 < String_length s ->
            In (mkIssue too_big [Key "intent"] None)
               (issues_of (BuildRequestSchema [] (Some (JObj members))))).
  { intros H. apply Hsub. rewrite Hfield. apply in_or_app. right.
    apply Nat.ltb_lt in H. rewrite H. now left. }
  destruct (BuildRequestSchema [] (Some (JObj members))) as [r|issues].
  - exfalso. destruct Hlen as [H | H]; [apply (Hsmall H) | apply (Hbig H)].
  - exists issues. now repeat split.
Qed.

Lemma intent_bounds_reported_witness :
  exists issues,
    BuildRequestSchema [] (Some (JObj [("intent", JStr "Hi")])) = Invalid issues
    /\ In (mkIssue too_small [Key "intent"]
             (Some "Prompt must be at least 3 characters")) issues.
Proof.
  destruct (@intent_bounds_reported [("intent", JStr "Hi")] "Hi" eq_refl)
    as (issues & E & Hsmall & _).
  - left. apply Nat.ltb_lt. reflexivity.
  - exists issues. split; [exact E|]. apply Hsmall. apply Nat.ltb_lt. reflexivity.
Defined.

End RequestFacts.

(* ------------------------------------------------------------------ *)
(** ** More on the generator *)
(* ------------------------------------------------------------------ *)

Module GeneratorFacts.
Import Js Validation Codegen Spec More Samples Facts CodegenFacts Fallback Generator
  Throws.

Lemma not_css_color (k : string) :
  ~ In k css_colors ->
  (k =? "text") = false /\ (k =? "background") = false
  /\ (k =? "primary") = false /\ (k =? "secondary") = false.
Proof.
  intros H. repeat split; apply String.eqb_neq; intros ->; apply H; cbn; tauto.
Qed.

(** X8.  The stylesheet reads the colours text, background, primary and
    secondary only: an entry under any other name leaves [renderCss]
    unchanged. *)
Theorem renderCss_ignores_other_colors (plan : SitePlan) (k v : string) :
  ~ In k css_colors -> renderCss (with_color k v plan) = renderCss plan.
Proof.
  intros H. apply not_css_color in H as (H1 & H2 & H3 & H4).
  unfold renderCss, color_or, with_color. cbn [colors style font lookup].
  now rewrite H1, H2, H3, H4.
Qed.

Lemma renderCss_ignores_other_colors_witness :
  renderCss (with_color "accent" "#abcdef" persian_plan) = renderCss persian_plan.
Proof.
  apply renderCss_ignores_other_colors.
  intros [H | [H | [H | [H | []]]]]; discriminate.
Defined.

Lemma wrap_member (open close stepback : string) (partial : list string) (x : string) :
  In x partial -> occurs_in x (wrap open close "  " stepback partial).
Proof.
  intros Hin. unfold wrap. destruct partial as [|y l]; [contradiction|].
  cbn [String.eqb Ascii.eqb Bool.eqb].
  do 3 apply occurs_in_append_left. apply occurs_in_append_right.
  now apply occurs_in_join.
Qed.

Lemma JSON_stringify2_member (members : list (string * JsValue)) (k : string) (x : JsValue) :
  In (k, x) members ->
  occurs_in (quote k ++ ": " ++ serialize "  " "  " x) (JSON_stringify2 (JObj members)).
Proof.
  intros Hin. unfold JSON_stringify2. cbn [serialize]. apply wrap_member.
  apply in_map_iff. exists (k, x). split; [reflexivity | assumption].
Qed.

(** X9.  [tailwind.config.ts] lists every entry of the colours map, known
    to the stylesheet or not, as a quoted name and a quoted value. *)
Theorem tailwindConfig_lists_every_color (plan : SitePlan) (k v : string) :
  In (k, v) (colors (style plan)) ->
  occurs_in (quote k ++ ": " ++ quote v) (tailwindConfig plan).
Proof.
  intros Hin. eapply occurs_in_trans; [|apply tailwindConfig_colors].
  apply occurs_in_append_left.
  apply (@JSON_stringify2_member _ k (JStr v)).
  unfold colors_value. apply in_map_iff. now exists (k, v).
Qed.

Lemma tailwindConfig_lists_every_color_witness :
  occurs_in (quote "accent" ++ ": " ++ quote "#abcdef") (tailwindConfig shop_plan).
Proof.
  apply tailwindConfig_lists_every_color. right. now left.
Defined.

(** X10.  An empty colour counts as an absent one: the stylesheet of a plan
    whose text, background, primary or secondary colour is the empty string
    is the one the default literal gives. *)
Theorem empty_color_reads_as_default (plan : SitePlan) (k d : string) :
  In (k, d) default_colors -> lookup k (colors (style plan)) = Some EmptyString ->
  renderCss plan = renderCss (with_color k d plan).
Proof.
  intros Hin Hempty. unfold renderCss, color_or, with_color.
  cbn [colors style font].
  cbn [default_colors In] in Hin.
  destruct Hin as [H | [H | [H | [H | []]]]]; injection H as <- <-;
    cbn [lookup String.eqb Ascii.eqb Bool.eqb]; rewrite Hempty; reflexivity.
Qed.

Lemma empty_color_reads_as_default_witness :
  renderCss (with_color "primary" EmptyString persian_plan)
  = renderCss (with_color "primary" "#007bff" (with_color "primary" EmptyString persian_plan)).
Proof.
  apply empty_color_reads_as_default; [cbn; tauto | reflexivity].
Defined.



Lemma filter_none {A} (f : A -> bool) (l : list A) :
  (forall x, In x l -> f x = false) -> filter f l = [].
Proof.
  induction l as [|a l IH]; intros H; [reflexivity|]. cbn [filter].
  rewrite (H a) by now left. apply IH. intros x Hx. apply H. now right.
Qed.

(** X12.  For a plan with no hero and no features section, [src/App.jsx]
    mounts [<Hero />] and [<Features />] all the same and defines neither
    component. *)
Theorem react_app_mounts_undefined_components (plan : SitePlan) :
  (forall s, In s (sections plan) -> react_component s = false) ->
  exists app,
    renderReactApp plan = Return app
    /\ occurs_in "<Hero />" app /\ occurs_in "<Features />" app
    /\ ~ occurs_in "const Hero" app /\ ~ occurs_in "const Features" app.
Proof.
  intros H. rewrite renderReactApp_filter, (filter_none _ _ H).
  unfold renderReactApp. cbn [sections with_sections mapM bind filter].
  eexists. split; [reflexivity|].
  repeat split;
    first [ apply includes_spec; vm_compute; reflexivity
          | apply not_occurs_in; vm_compute; reflexivity ].
Qed.

Lemma react_app_mounts_undefined_components_witness :
  exists app,
    renderReactApp gallery_plan = Return app
    /\ occurs_in "<Hero />" app /\ ~ occurs_in "const Hero" app.
Proof.
  destruct (@react_app_mounts_undefined_components gallery_plan)
    as (app & Happ & Hm & _ & Hd & _).
  - intros s [<- | []]. reflexivity.
  - exists app. now repeat split.
Defined.

(** X13.  The manifest depends on the flavor alone: the vanilla flavor has
    no [package.json], the react and next flavors have the manifest of
    their name, whatever the plan; and [basicPkgJson] gives the next
    manifest for every name other than ['react']. *)
Theorem manifest_depends_on_flavor_only
        (plan : SitePlan) (fw : Framework) (out : GeneratedFiles) (name : string) :
  buildFilesFromPlan plan fw = Return out ->
  file_at "package.json" out
  = match fw with
    | vanilla => None
    | _ => Some (basicPkgJson (Framework_name fw))
    end
  /\ (name <> "react" -> basicPkgJson name = basicPkgJson "next")
  /\ basicPkgJson "react" <> basicPkgJson "next".
Proof.
  intros H. split; [|split].
  - destruct fw; unfold buildFilesFromPlan in H;
      apply bind_Return in H as (x & _ & H); injection H as <-; reflexivity.
  - intros Hn. apply String.eqb_neq in Hn. unfold basicPkgJson. now rewrite Hn.
  - intros E. vm_compute in E. discriminate.
Qed.

Lemma manifest_depends_on_flavor_only_witness :
  exists out,
    buildFilesFromPlan shop_plan next = Return out
    /\ file_at "package.json" out = Some (basicPkgJson "next").
Proof.
  eexists. split; [reflexivity|].
  exact (proj1 (@manifest_depends_on_flavor_only shop_plan next _ "next" eq_refl)).
Defined.

(** X14.  In the vanilla [index.html] and in the next [app/layout.tsx] the
    root element is [<html lang="L" dir="rtl">] when the language [L] is
    ['fa'] and [<html lang="L" >] for every other language. *)
Theorem root_element_direction (plan : SitePlan) (fw : Framework) (out : GeneratedFiles) :
  buildFilesFromPlan plan fw = Return out ->
  match fw with
  | vanilla =>
      exists html, file_at "index.html" out = Some html
                   /\ occurs_in (html_open_tag (language (meta plan))) html
  | react => True
  | next =>
      exists layout, file_at "app/layout.tsx" out = Some layout
                     /\ occurs_in (html_open_tag (language (meta plan))) layout
  end.
Proof.
  intros H. destruct fw; [| exact I |]; unfold buildFilesFromPlan in H;
    apply bind_Return in H as (x & Hx & H); injection H as <-.
  - exists x. split; [reflexivity|].
    unfold renderHtml in Hx. apply bind_Return in Hx as (frags & _ & Hx).
    injection Hx as <-.
    eapply occurs_in_lines; [do 1 right; left; reflexivity|].
    unfold html_open_tag, dir_attr. apply occurs_in_refl.
  - eexists. split; [reflexivity|]. unfold baseLayout.
    eapply occurs_in_lines; [do 14 right; left; reflexivity|].
    unfold html_open_tag, dir_attr. do 4 apply occurs_in_cons. apply occurs_in_refl.
Qed.

Lemma root_element_direction_witness :
  exists out layout,
    buildFilesFromPlan persian_plan next = Return out
    /\ file_at "app/layout.tsx" out = Some layout
    /\ occurs_in (html_open_tag "fa") layout.
Proof.
  pose proof (@root_element_direction persian_plan next _ eq_refl) as (layout & Hf & Ho).
  eexists; exists layout. split; [reflexivity|]. split; [exact Hf | exact Ho].
Defined.

Lemma mapM_Forall2 {A B} (f : A -> Outcome B) (l : list A) (ys : list B) :
  mapM f l = Return ys -> Forall2 (fun x y => f x = Return y) l ys.
Proof.
  revert ys. induction l as [|a l IH]; intros ys H.
  - injection H as <-. constructor.
  - cbn [mapM] in H. apply bind_Return in H as (y & Hy & H).
    apply bind_Return in H as (ys' & Hys & H). injection H as <-.
    constructor; [assumption | now apply IH].
Qed.

(** X15.  The vanilla and the next flavor render every section, one
    fragment each, in the order of the plan: the document holds the
    fragments of the sections joined in that order. *)
Theorem sections_rendered_in_order (plan : SitePlan) :
  (forall html, renderHtml plan = Return html ->
     exists frags,
       Forall2 (fun s f => renderHtml_section s = Return f) (sections plan) frags
       /\ occurs_in (join nl frags) html)
  /\ (forall page, renderNextPage plan = Return page ->
        exists blocks,
          Forall2 (fun s b => renderNextPage_section s = Return b) (sections plan) blocks
          /\ occurs_in (join EmptyString blocks) page).
Proof.
  split.
  - intros html H. apply renderHtml_fragments in H as (frags & Hf & Ho).
    exists frags. split; [now apply mapM_Forall2 | assumption].
  - intros page H. apply renderNextPage_blocks in H as (blocks & Hb & Ho).
    exists blocks. split; [now apply mapM_Forall2 | assumption].
Qed.

Lemma sections_rendered_in_order_witness :
  exists html frags,
    renderHtml shop_plan = Return html
    /\ Forall2 (fun s f => renderHtml_section s = Return f) (sections shop_plan) frags
    /\ occurs_in (join nl frags) html.
Proof.
  eexists.
  destruct (proj1 (sections_rendered_in_order shop_plan) _ eq_refl) as (frags & Hf & Ho).
  exists frags. split; [reflexivity | split; assumption].
Defined.

Lemma unprintable_section_throws (plan : SitePlan) (fw : Framework) (s : Section) :
  In s (sections plan) -> section_ok fw s = false ->
  exists m, buildFilesFromPlan plan fw = Throw (TypeError m).
Proof.
  intros Hin Hbad.
  destruct (buildFilesFromPlan plan fw) as [out|e] eqn:E.
  - assert (Hok : plan_ok fw plan = true)
      by (apply buildFilesFromPlan_returns_iff; now exists out).
    unfold plan_ok in Hok. rewrite forallb_forall in Hok.
    rewrite (Hok s Hin) in Hbad. discriminate.
  - destruct (buildFilesFromPlan_throws _ _ E) as (m & -> & _). now exists m.
Qed.

(** X16.  The vanilla flavor throws a [TypeError] on every plan with a
    features section whose [items] is truthy and no array (a string, a
    number, [true], an object), whatever else the plan holds. *)
Theorem vanilla_throws_on_items_that_are_no_array
        (plan : SitePlan) (s : Section) (v : JsValue) :
  In s (sections plan) -> section_type s = "features" ->
  lookup "items" (props s) = Some v -> truthy v = true ->
  (forall elems, v <> JArr elems) ->
  exists m, buildFilesFromPlan plan vanilla = Throw (TypeError m).
Proof.
  intros Hin Ht Hi Hv Harr. apply unprintable_section_throws with s; [assumption|].
  unfold section_ok. rewrite Ht. cbn [String.eqb Ascii.eqb Bool.eqb].
  unfold items_ok. rewrite Hi, Hv.
  destruct v; try apply andb_false_r. now destruct (Harr elems).
Qed.

Lemma vanilla_throws_on_items_that_are_no_array_witness :
  exists m, buildFilesFromPlan bad_items_plan vanilla = Throw (TypeError m).
Proof.
  apply (@vanilla_throws_on_items_that_are_no_array bad_items_plan
           (mkSection "f1" "features" [("items", JStr "none")]) (JStr "none"));
    try reflexivity; [now left | discriminate].
Defined.

(** X17.  In every flavor the generator throws a [TypeError] on a plan with
    a hero section whose title is an object that has a member named
    [toString]: such an object cannot be converted to a string. *)
Theorem throws_on_title_with_own_toString
        (plan : SitePlan) (fw : Framework) (s : Section)
        (members : list (string * JsValue)) :
  In s (sections plan) -> section_type s = "hero" ->
  lookup "title" (props s) = Some (JObj members) ->
  has_key "toString" members = true ->
  exists m, buildFilesFromPlan plan fw = Throw (TypeError m).
Proof.
  intros Hin Ht Htitle Hkey. apply unprintable_section_throws with s; [assumption|].
  unfold section_ok, printable_at. destruct fw; rewrite ?Ht;
    cbn [String.eqb Ascii.eqb Bool.eqb forallb]; rewrite Htitle;
    cbn [printable_opt printable]; now rewrite Hkey.
Qed.

Lemma throws_on_title_with_own_toString_witness :
  exists m,
    buildFilesFromPlan
      (with_sections
         [mkSection "h" "hero" [("title", JObj [("toString", JNull)])]] persian_plan)
      next
    = Throw (TypeError m).
Proof.
  apply (@throws_on_title_with_own_toString _ next
           (mkSection "h" "hero" [("title", JObj [("toString", JNull)])])
           [("toString", JNull)]); try reflexivity. now left.
Defined.

End GeneratorFacts.

(* ------------------------------------------------------------------ *)
(** ** The AI client, the two routes and the prompt *)
(* ------------------------------------------------------------------ *)

Module ServiceFacts.
Import Js Validation Codegen Effects Schemas Spec More Samples Facts GeneratorFacts.

(** X18.  The AI client sends the request to the completion service once,
    whatever follows, and returns a plan exactly when the service answers,
    its first choice has a message with a text that is not empty, and that
    text parses; every other case ends in an exception. *)
Theorem generateSitePlan_returns_iff
        (service : BuildRequest -> Outcome (list Ai.Choice))
        (JSON_parse : string -> Outcome SitePlan)
        (req : BuildRequest) (w : World) (plan : SitePlan) :
  ai_requests (snd (Ai.generateSitePlan service JSON_parse req w)) = req :: ai_requests w
  /\ (fst (Ai.generateSitePlan service JSON_parse req w) = Return plan
      <-> exists c rest text,
            service req = Return (c :: rest)
            /\ Ai.message c = Some (Some text)
            /\ text <> EmptyString
            /\ JSON_parse text = Return plan).
Proof.
  unfold Ai.generateSitePlan, try_catch, bindA, Ai.create, lift, throw, console_error.
  destruct (service req) as [[|c rest]|e1]; cbn [fst snd Ai.first_content ai_requests].
  - split; [reflexivity|]. split; [discriminate | now intros (? & ? & ? & [=] & _)].
  - destruct (Ai.message c) as [[text|]|] eqn:Em; cbn [fst snd ai_requests].
    + destruct (String.eqb_spec text EmptyString) as [-> | Hne]; cbn [fst snd ai_requests].
      * split; [reflexivity|]. split; [discriminate|].
        intros (c' & rest' & text' & [= <- <-] & Hm & Hne & _).
        rewrite Em in Hm. injection Hm as <-. now destruct Hne.
      * destruct (JSON_parse text) as [p|e] eqn:Ep; cbn [fst snd ai_requests];
          (split; [reflexivity|]); split.
        -- intros [= <-]. now exists c, rest, text.
        -- intros (c' & rest' & text' & [= <- <-] & Hm & _ & Hp).
           rewrite Em in Hm. injection Hm as <-. rewrite Ep in Hp. now injection Hp as <-.
        -- discriminate.
        -- intros (c' & rest' & text' & [= <- <-] & Hm & _ & Hp).
           rewrite Em in Hm. injection Hm as <-. rewrite Ep in Hp. discriminate.
    + split; [reflexivity|]. split; [discriminate|].
      intros (c' & rest' & text' & [= <- <-] & Hm & _). rewrite Em in Hm. discriminate.
    + split; [reflexivity|]. split; [discriminate|].
      intros (c' & rest' & text' & [= <- <-] & Hm & _). rewrite Em in Hm. discriminate.
  - split; [reflexivity|]. split; [discriminate | now intros (? & ? & ? & [=] & _)].
Qed.

Lemma generateSitePlan_returns_iff_witness :
  fst (Ai.generateSitePlan steady_service steady_parse bakery_request fresh_world)
  = Return persian_plan.
Proof.
  apply (proj2 (@generateSitePlan_returns_iff steady_service steady_parse
                  bakery_request fresh_world persian_plan)).
  exists (Ai.mkChoice (Some (Some "{...}"))), [], "{...}".
  repeat split. discriminate.
Defined.

(** X19.  When the body of a generate request is no JSON, so that
    [req.json()] throws, the handler answers 500 with the message of that
    error, or with ["Failed to generate site"] when it has none, and sends
    nothing to the completion service. *)
Theorem malformed_body_is_a_500
        (service : BuildRequest -> Outcome (list Ai.Choice))
        (JSON_parse : string -> Outcome SitePlan)
        (name message : string) (w : World) :
  name <> "ZodError" ->
  Route.POST service JSON_parse (Throw (NativeError name message)) w
  = (Return (Route.mkResponse 500
               (Route.Failure
                  (if message =? EmptyString then "Failed to generate site" else message)
                  None)),
     mkWorld (ai_requests w)
       (("Generation error:", NativeError name message) :: console w)).
Proof.
  intros Hn. apply String.eqb_neq in Hn.
  unfold Route.POST, Route.on_error, try_catch, bindA, lift, console_error, ret.
  cbn. now rewrite Hn.
Qed.

Lemma malformed_body_is_a_500_witness :
  fst (Route.POST steady_service steady_parse
         (Throw (NativeError "SyntaxError" "Unexpected end of JSON input")) fresh_world)
  = Return (Route.mkResponse 500 (Route.Failure "Unexpected end of JSON input" None)).
Proof.
  rewrite (@malformed_body_is_a_500 steady_service steady_parse
             "SyntaxError" "Unexpected end of JSON input" fresh_world);
    [reflexivity | discriminate].
Defined.

(** X20.  A request that passes validation reaches the completion service
    exactly once, as the validated request, whether the client, the
    generator or neither fails afterwards. *)
Theorem valid_request_is_sent_once
        (service : BuildRequest -> Outcome (list Ai.Choice))
        (JSON_parse : string -> Outcome SitePlan)
        (raw : JsValue) (req : BuildRequest) (w : World) :
  BuildRequestSchema [] (Some raw) = Valid req ->
  ai_requests (snd (Route.POST service JSON_parse (Return raw) w)) = req :: ai_requests w.
Proof.
  intros Hv.
  pose proof (proj1 (@generateSitePlan_returns_iff service JSON_parse req w
                       persian_plan)) as Hsent.
  unfold Route.POST, try_catch, bindA, lift, parse, ret. rewrite Hv.
  destruct (Ai.generateSitePlan service JSON_parse req w) as [[plan|e] w'];
    cbn [snd] in Hsent.
  - destruct (buildFilesFromPlan plan (framework req)) as [out|e]; [assumption|].
    unfold Route.on_error, bindA, console_error, ret.
    destruct e as [n m|errors]; [destruct (n =? "ZodError")|]; assumption.
  - unfold Route.on_error, bindA, console_error, ret.
    destruct e as [n m|errors]; [destruct (n =? "ZodError")|]; assumption.
Qed.

Lemma valid_request_is_sent_once_witness :
  ai_requests (snd (Route.POST steady_service steady_parse
                      (Return (BuildRequest_json bakery_request)) fresh_world))
  = [bakery_request].
Proof.
  apply (@valid_request_is_sent_once steady_service steady_parse
           (BuildRequest_json bakery_request) bakery_request fresh_world).
  reflexivity.
Defined.



Lemma has_char_append (c : ascii) (a b : string) :
  has_char c (a ++ b) = has_char c a || has_char c b.
Proof.
  induction a as [|x a IH]; [reflexivity|]. cbn. now rewrite IH, orb_assoc.
Qed.

Lemma has_char_occurs (c : ascii) (t : string) :
  occurs_in (String c EmptyString) t -> has_char c t = true.
Proof.
  intros (pre & post & ->). rewrite has_char_append. cbn.
  now rewrite Ascii.eqb_refl, orb_true_r.
Qed.

Lemma quote_char_one_line (c : ascii) :
  has_char "010"%char (quote_char c) = false.
Proof. destruct c as [[] [] [] [] [] [] [] []]; reflexivity. Qed.

Lemma quote_one_line (s : string) : has_char "010"%char (quote s) = false.
Proof.
  unfold quote. rewrite !has_char_append. cbn [has_char dq Ascii.eqb Bool.eqb orb].
  rewrite orb_false_r.
  induction s as [|c s IH]; [reflexivity|].
  cbn [quote_body]. now rewrite has_char_append, quote_char_one_line, IH.
Qed.

(** X22.  The user prompt shows the intent of the request as a JSON string
    after its name, and that string holds no line feed: whatever the
    intent, it stays on the line of its member. *)
Theorem USER_PROMPT_quotes_the_intent (req : BuildRequest) :
  occurs_in (quote "intent" ++ ": " ++ quote (intent req)) (Prompts.USER_PROMPT req)
  /\ ~ occurs_in nl (quote (intent req)).
Proof.
  split.
  - unfold Prompts.USER_PROMPT.
    eapply occurs_in_lines; [do 2 right; left; reflexivity|].
    apply (@JSON_stringify2_member _ "intent" (JStr (intent req))).
    unfold BuildRequest_json. now left.
  - intros H. apply has_char_occurs in H. now rewrite quote_one_line in H.
Qed.

End ServiceFacts.

(* ------------------------------------------------------------------ *)
(** ** The preview of what the generator returns *)
(* ------------------------------------------------------------------ *)

Module PreviewFacts.
Import Js Validation Codegen Spec More Samples Facts ServiceFacts.

Lemma vanilla_preview_files (c1 c2 c3 : string) :
  let files := [mkFile "index.html" c1; mkFile "styles.css" c2; mkFile "main.js" c3] in
  Preview.htmlFile files = Some (mkFile "index.html" c1)
  /\ Preview.cssFile files = Some (mkFile "styles.css" c2)
  /\ Preview.jsFile files = Some (mkFile "main.js" c3).
Proof. repeat split. Qed.

Lemma react_preview_files (c1 c2 c3 c4 c5 : string) :
  let files :=
    [ mkFile "package.json" c1; mkFile "src/App.jsx" c2; mkFile "src/main.jsx" c3;
      mkFile "public/index.html" c4; mkFile "src/App.css" c5 ] in
  Preview.htmlFile files = Some (mkFile "public/index.html" c4)
  /\ Preview.cssFile files = Some (mkFile "src/App.css" c5)
  /\ Preview.jsFile files = None.
Proof. repeat split. Qed.

Lemma next_preview_files (c1 c2 c3 c4 c5 : string) :
  Preview.htmlFile
    [ mkFile "package.json" c1; mkFile "app/page.tsx" c2; mkFile "app/layout.tsx" c3;
      mkFile "app/globals.css" c4; mkFile "tailwind.config.ts" c5 ] = None.
Proof. reflexivity. Qed.

(** X23.  The files the preview picks from what the generator returns: for
    the vanilla flavor [index.html], [styles.css] and [main.js]; for the
    react flavor [public/index.html] and [src/App.css] but no script, no
    path ending in [.js]; for the next flavor no document at all, so that
    the preview document is empty. *)
Theorem preview_files_by_flavor (plan : SitePlan) (fw : Framework) (out : GeneratedFiles) :
  buildFilesFromPlan plan fw = Return out ->
  match fw with
  | vanilla =>
      option_map path (Preview.htmlFile (files out)) = Some "index.html"
      /\ option_map path (Preview.cssFile (files out)) = Some "styles.css"
      /\ option_map path (Preview.jsFile (files out)) = Some "main.js"
  | react =>
      option_map path (Preview.htmlFile (files out)) = Some "public/index.html"
      /\ option_map path (Preview.cssFile (files out)) = Some "src/App.css"
      /\ Preview.jsFile (files out) = None
  | next =>
      Preview.htmlFile (files out) = None
      /\ Preview.renderHtml (files out) = EmptyString
  end.
Proof.
  intros H. destruct fw; unfold buildFilesFromPlan in H;
    apply bind_Return in H as (x & _ & H); injection H as <-; cbn [files].
  - destruct (vanilla_preview_files x (renderCss plan) (renderJs plan)) as (-> & -> & ->).
    now repeat split.
  - destruct (react_preview_files (basicPkgJson "react") x react_main_jsx
                (react_index_html plan) (renderCss plan)) as (-> & -> & ->).
    now repeat split.
  - unfold Preview.renderHtml. rewrite next_preview_files. now split.
Qed.

Lemma preview_files_by_flavor_witness :
  exists out,
    buildFilesFromPlan shop_plan next = Return out
    /\ Preview.renderHtml (files out) = EmptyString.
Proof.
  eexists. split; [reflexivity|].
  exact (proj2 (@preview_files_by_flavor shop_plan next _ eq_refl)).
Defined.

Lemma drop_prefix_append (p r : string) : Preview.drop_prefix p (p ++ r) = r.
Proof. induction p as [|a p IH]; [now destruct r | exact IH]. Qed.

Lemma split_at_occurs (p s : string) :
  occurs_in p s ->
  exists pre post, Preview.split_at p s = Some (pre, post) /\ s = pre ++ p ++ post.
Proof.
  intros (pre & post & ->). induction pre as [|c pre IH].
  - cbn [append]. assert (Hp : prefixb p (p ++ post) = true)
      by (apply prefixb_spec; now exists post).
    exists EmptyString, post. split; [|reflexivity].
    destruct (p ++ post) eqn:E; cbn [Preview.split_at]; rewrite Hp;
      rewrite <- E, drop_prefix_append; reflexivity.
  - destruct IH as (pre' & post' & Hs & E).
    cbn [append Preview.split_at].
    destruct (prefixb p (String c (pre ++ p ++ post))) eqn:Hp.
    + apply prefixb_spec in Hp as (r & Hr). exists EmptyString, r.
      split; [|exact Hr]. now rewrite Hr, drop_prefix_append.
    + rewrite Hs. exists (String c pre'), post'. split; [reflexivity|].
      cbn [append]. now rewrite <- E.
Qed.

Lemma GetSubstitution_plain (m pre post r : string) :
  has_char "$"%char r = false -> Preview.GetSubstitution m pre post r = r.
Proof.
  induction r as [|a r IH]; [reflexivity|]. cbn [has_char Preview.GetSubstitution].
  intros H. apply orb_false_iff in H as (Ha & Hr). now rewrite Ha, IH.
Qed.

Lemma split_at_first (p s pre post : string) :
  Preview.split_at p s = Some (pre, post) ->
  forall a b, s = a ++ p ++ b -> String.length pre <= String.length a.
Proof.
  revert pre. induction s as [|c s IH]; intros pre H a b E; cbn [Preview.split_at] in H.
  - destruct (prefixb p EmptyString); [|discriminate].
    injection H as <- _. apply Nat.le_0_l.
  - destruct (prefixb p (String c s)) eqn:Hp.
    + injection H as <- _. apply Nat.le_0_l.
    + destruct (Preview.split_at p s) as [[pre' post']|] eqn:Hs; [|discriminate].
      injection H as <- <-.
      destruct a as [|c' a'].
      * cbn [append] in E.
        assert (Hp' : prefixb p (String c s) = true)
          by (apply prefixb_spec; now exists b).
        congruence.
      * cbn [append] in E. injection E as _ E.
        cbn [String.length]. apply le_n_S. now apply (IH pre' eq_refl a' b).
Qed.

(** X24.  The preview of a react output is [public/index.html] with the
    stylesheet put verbatim in a style element before the first [</head>]
    and no script added, when the document holds no [<style>] and the
    stylesheet no dollar sign: the document is cut at a [</head>] that no
    other one precedes, and the style element is put there. *)
Theorem react_preview_inlines_the_stylesheet (plan : SitePlan) (out : GeneratedFiles) :
  buildFilesFromPlan plan react = Return out ->
  includes (react_index_html plan) "<style>" = false ->
  has_char "$"%char (renderCss plan) = false ->
  exists pre post,
    react_index_html plan = pre ++ "</head>" ++ post
    /\ (forall a b, react_index_html plan = a ++ "</head>" ++ b ->
          String.length pre <= String.length a)
    /\ Preview.renderHtml (files out)
       = pre ++ ("<style>" ++ renderCss plan ++ "</style>" ++ "</head>") ++ post.
Proof.
  intros H Hstyle Hplain. unfold buildFilesFromPlan in H.
  apply bind_Return in H as (x & _ & H). injection H as <-. cbn [files].
  unfold Preview.renderHtml.
  destruct (react_preview_files (basicPkgJson "react") x react_main_jsx
              (react_index_html plan) (renderCss plan)) as (-> & -> & ->).
  cbn [content]. rewrite Hstyle. cbn [negb].
  assert (Hhead : occurs_in "</head>" (react_index_html plan)).
  { unfold react_index_html.
    eapply occurs_in_lines; [do 6 right; left; reflexivity | apply occurs_in_refl]. }
  destruct (split_at_occurs Hhead) as (pre & post & Hs & E).
  exists pre, post. split; [exact E|]. split; [exact (@split_at_first _ _ _ _ Hs)|].
  unfold Preview.replace. rewrite Hs. rewrite GetSubstitution_plain; [reflexivity|].
  rewrite !has_char_append, Hplain. reflexivity.
Qed.

Lemma react_preview_inlines_the_stylesheet_witness :
  exists out pre post,
    buildFilesFromPlan persian_plan react = Return out
    /\ react_index_html persian_plan = pre ++ "</head>" ++ post
    /\ (forall a b, react_index_html persian_plan = a ++ "</head>" ++ b ->
          String.length pre <= String.length a)
    /\ Preview.renderHtml (files out)
       = pre ++ ("<style>" ++ renderCss persian_plan ++ "</style>" ++ "</head>") ++ post.
Proof.
  destruct (@react_preview_inlines_the_stylesheet persian_plan _ eq_refl)
    as (pre & post & E & Hfirst & Hp); [reflexivity | reflexivity |].
  eexists; exists pre, post. split; [reflexivity|].
  split; [exact E | split; [exact Hfirst | exact Hp]].
Defined.

End PreviewFacts.

(* ------------------------------------------------------------------ *)
(** ** The forms against the schema *)
(* ------------------------------------------------------------------ *)

Module FormsFacts.
Import Js Validation Effects Spec More Samples Requests Roundtrip RequestFacts.

(** X25.  No request of [ModernPromptForm] passes validation: whatever the
    state of the form, its body names the brand tone ['modern'], which is
    none of formal, casual and playful; the schema raises an
    [invalid_enum_value] issue at [brand, tone], and the handler answers
    400 without a call of the completion service. *)
Theorem ModernPromptForm_is_always_rejected
        (service : BuildRequest -> Outcome (list Ai.Choice))
        (JSON_parse : string -> Outcome SitePlan)
        (intent : string) (framework : Framework) (primaryColor : string)
        (sections : list string) (language : Language) (w : World) :
  let body := Forms.ModernPromptForm_body intent framework primaryColor sections language in
  exists issues,
    BuildRequestSchema [] (Some body) = Invalid issues
    /\ In (mkIssue invalid_enum_value [Key "brand"; Key "tone"] None) issues
    /\ Route.POST service JSON_parse (Return body) w
       = (Return (Route.mkResponse 400
                    (Route.Failure "Invalid request data" (Some issues))),
          mkWorld (ai_requests w) (("Generation error:", ZodError issues) :: console w)).
Proof.
  intros body.
  assert (Hin : In (mkIssue invalid_enum_value [Key "brand"; Key "tone"] None)
                   (issues_of (BuildRequestSchema [] (Some body)))).
  { unfold body, Forms.ModernPromptForm_body. rewrite BuildRequestSchema_issues.
    apply in_flat_map. exists "brand". split; [cbn; tauto|].
    unfold field_issues, field_verdict. cbn [String.eqb Ascii.eqb Bool.eqb lookup].
    rewrite snd_verdict. cbn. now left. }
  apply invalid_when_issue in Hin as (issues & E & Hin).
  exists issues. split; [exact E|]. split; [exact Hin|].
  unfold Route.POST, try_catch, bindA, lift, parse. now rewrite E.
Qed.

(** X26.  The quick generation of the home page is accepted exactly on the
    length of its prompt: with 3 to 2000 characters the schema returns the
    vanilla request for hero, features and contact in English; with fewer
    or more it rejects the request. *)
Theorem quick_generate_depends_on_prompt_length (prompt : string) :
  (3 <= String_length prompt <= 2000 ->
   parse BuildRequestSchema (Forms.handleQuickGenerate_body prompt)
   = Return (Forms.quick_request prompt))
  /\ (String_length prompt < 3 \/ 2000 < String_length prompt ->
      exists issues,
        parse BuildRequestSchema (Forms.handleQuickGenerate_body prompt)
        = Throw (ZodError issues)).
Proof.
  split.
  - intros Hlen.
    unfold parse, BuildRequestSchema, z_object, Forms.handleQuickGenerate_body.
    cbn [lookup String.eqb Ascii.eqb Bool.eqb].
    rewrite IntentSchema_json by assumption. reflexivity.
  - intros Hlen.
    unfold Forms.handleQuickGenerate_body, parse.
    match goal with
    | |- context [Some (JObj ?m)] =>
        destruct (@intent_bounds_reported m prompt eq_refl Hlen) as (issues & E & _)
    end.
    exists issues. now rewrite E.
Qed.

Lemma quick_generate_depends_on_prompt_length_witness :
  parse BuildRequestSchema (Forms.handleQuickGenerate_body "A bakery site")
  = Return (Forms.quick_request "A bakery site").
Proof.
  apply (proj1 (quick_generate_depends_on_prompt_length "A bakery site")).
  split; apply Nat.leb_le; reflexivity.
Defined.

Lemma existsb_eqb_In (x : string) (l : list string) :
  existsb (String.eqb x) l = true <-> In x l.
Proof.
  rewrite existsb_exists. split.
  - intros (y & Hy & E). apply String.eqb_eq in E. now subst.
  - intros H. exists x. split; [assumption | apply String.eqb_refl].
Qed.

(** X27.  [toggleSection] flips the presence of the toggled section and of
    no other, and keeps a list without repetition free of repetition. *)
Theorem toggleSection_flips_one (section : string) (prev : list string) :
  (In section (Forms.toggleSection section prev) <-> ~ In section prev)
  /\ (forall other, other <> section ->
        (In other (Forms.toggleSection section prev) <-> In other prev))
  /\ (NoDup prev -> NoDup (Forms.toggleSection section prev)).
Proof.
  unfold Forms.toggleSection.
  destruct (existsb (String.eqb section) prev) eqn:E.
  - apply existsb_eqb_In in E. split; [|split].
    + rewrite filter_In, String.eqb_refl. cbn. intuition discriminate.
    + intros other Hne. rewrite filter_In.
      apply String.eqb_neq in Hne. rewrite Hne. cbn. tauto.
    + apply NoDup_filter.
  - assert (Hnot : ~ In section prev).
    { intros H. apply existsb_eqb_In in H. congruence. }
    split; [|split].
    + rewrite in_app_iff. cbn. tauto.
    + intros other Hne. rewrite in_app_iff. cbn. intuition congruence.
    + intros Hnd. apply NoDup_app; [assumption | repeat constructor; intros [] |].
      intros x Hx [<- | []]. contradiction.
Qed.

Lemma toggleSection_flips_one_witness :
  NoDup (Forms.toggleSection "menu" ["hero"; "features"; "contact"]).
Proof.
  apply (proj2 (proj2 (toggleSection_flips_one "menu" ["hero"; "features"; "contact"]))).
  repeat (constructor; [cbn; intuition discriminate|]). constructor.
Defined.

End FormsFacts.
